(** * cyberark_account: a shallow embedding of plugins/modules/cyberark_account.py

    The module reconciles one vault account record against the caller's
    parameters.  The embedding follows the Python 2 semantics the module is
    written for (it calls [urllib.quote]): strings are byte strings, a dict
    is an association list in its iteration order with first-match lookup,
    and every way a statement can fail (KeyError, AttributeError, TypeError,
    [module.fail_json]) is an explicit outcome. *)

From Stdlib Require Import List String Ascii ZArith Bool Lia Arith DecimalString.
Import ListNotations.
Local Open Scope string_scope.
Local Open Scope Z_scope.
Local Set Warnings "-register-all".

(** ** Python values *)

(** The JSON-shaped values that travel through the module: parameters,
    account records, payloads.  Floats do not occur in the account API and
    are left out. *)
Inductive value : Type :=
| VNone
| VBool (b : bool)
| VInt (n : Z)
| VStr (s : string)
| VList (l : list value)
| VDict (d : list (string * value)).

Definition dict := list (string * value).

(** Induction on values that reaches inside lists and dicts. *)
Section ValueInduction.

Variable P : value -> Prop.
Hypothesis P_none : P VNone.
Hypothesis P_bool : forall b, P (VBool b).
Hypothesis P_int : forall n, P (VInt n).
Hypothesis P_str : forall s, P (VStr s).
Hypothesis P_list : forall l, Forall P l -> P (VList l).
Hypothesis P_dict : forall d, Forall (fun kv => P (snd kv)) d -> P (VDict d).

Fixpoint value_induction (v : value) : P v :=
  match v with
  | VNone => P_none
  | VBool b => P_bool b
  | VInt n => P_int n
  | VStr s => P_str s
  | VList l =>
      P_list l
        ((fix go (l : list value) : Forall P l :=
            match l with
            | [] => Forall_nil P
            | x :: l' => Forall_cons x (value_induction x) (go l')
            end) l)
  | VDict d =>
      P_dict d
        ((fix go (d : list (string * value))
            : Forall (fun kv => P (snd kv)) d :=
            match d with
            | [] => Forall_nil _
            | kv :: d' =>
                Forall_cons kv (value_induction (snd kv)) (go d')
            end) d)
  end.

End ValueInduction.

Module Dict.

(** [d[k]] when [k in d], as an option. *)
Fixpoint get {A : Type} (k : string) (d : list (string * A)) : option A :=
  match d with
  | [] => None
  | (k', v) :: d' => if String.eqb k k' then Some v else get k d'
  end.

Definition keys {A : Type} (d : list (string * A)) : list string := map fst d.

Definition mem {A : Type} (k : string) (d : list (string * A)) : bool :=
  match get k d with Some _ => true | None => false end.

(** [d[k] = v]: overwrite in place, or append a new key. *)
Fixpoint set {A : Type} (k : string) (v : A) (d : list (string * A))
  : list (string * A) :=
  match d with
  | [] => [(k, v)]
  | (k', v') :: d' =>
      if String.eqb k k' then (k', v) :: d' else (k', v') :: set k v d'
  end.

(** [del d[k]], doing nothing when the key is missing. *)
Fixpoint remove {A : Type} (k : string) (d : list (string * A))
  : list (string * A) :=
  match d with
  | [] => []
  | (k', v') :: d' =>
      if String.eqb k k' then remove k d' else (k', v') :: remove k d'
  end.

End Dict.

(** [x in l] for a list of strings. *)
Definition str_in (x : string) (l : list string) : bool :=
  existsb (String.eqb x) l.

(** Python's [==] on values: [True == 1], lists compare element-wise and
    dicts compare as maps, whatever the order of their items. *)
Fixpoint py_eq (a b : value) {struct a} : bool :=
  match a, b with
  | VNone, VNone => true
  | VBool x, VBool y => Bool.eqb x y
  | VBool x, VInt n => Z.eqb (Z.b2z x) n
  | VInt n, VBool x => Z.eqb n (Z.b2z x)
  | VInt m, VInt n => Z.eqb m n
  | VStr s, VStr t => String.eqb s t
  | VList l, VList m =>
      (fix go (l m : list value) {struct l} : bool :=
         match l, m with
         | [], [] => true
         | x :: l', y :: m' => py_eq x y && go l' m'
         | _, _ => false
         end) l m
  | VDict d, VDict e =>
      Nat.eqb (List.length d) (List.length e) &&
      (fix go (d : list (string * value)) {struct d} : bool :=
         match d with
         | [] => true
         | (k, v) :: d' =>
             match Dict.get k e with
             | Some w => py_eq v w
             | None => false
             end && go d'
         end) d
  | _, _ => false
  end.

Definition is_none (v : value) : bool :=
  match v with VNone => true | _ => false end.

Definition is_dict (v : value) : bool :=
  match v with VDict _ => true | _ => false end.

(** ** Strings *)

(** [s.split(c)] for a one-character separator: never the empty list. *)
Fixpoint split_on (c : ascii) (s : string) : list string :=
  match s with
  | EmptyString => [EmptyString]
  | String a s' =>
      if Ascii.eqb a c then EmptyString :: split_on c s'
      else match split_on c s' with
           | [] => [String a EmptyString]
           | h :: t => String a h :: t
           end
  end.

Definition is_space (a : ascii) : bool :=
  let n := nat_of_ascii a in
  (Nat.eqb n 32 || (Nat.leb 9 n && Nat.leb n 13))%bool.

(** [s.lstrip()] *)
Fixpoint lstrip (s : string) : string :=
  match s with
  | EmptyString => EmptyString
  | String a s' => if is_space a then lstrip s' else s
  end.

Definition hex_digit (n : nat) : ascii :=
  ascii_of_nat (if Nat.ltb n 10 then 48 + n else 55 + n)%nat.

Definition always_safe (a : ascii) : bool :=
  let n := nat_of_ascii a in
  ((Nat.leb 48 n && Nat.leb n 57) || (Nat.leb 65 n && Nat.leb n 90)
   || (Nat.leb 97 n && Nat.leb n 122)
   || Nat.eqb n 95 || Nat.eqb n 46 || Nat.eqb n 45 || Nat.eqb n 47)%bool.

(** [urllib.quote(s)] with its default [safe='/']: letters, digits and
    [_.-/] stay, every other byte becomes [%XX]. *)
Fixpoint quote (s : string) : string :=
  match s with
  | EmptyString => EmptyString
  | String a s' =>
      if always_safe a then String a (quote s')
      else let n := nat_of_ascii a in
           String "%" (String (hex_digit (n / 16))
                         (String (hex_digit (n mod 16)) (quote s')))
  end.

Fixpoint join (sep : string) (l : list string) : string :=
  match l with
  | [] => ""
  | [x] => x
  | x :: l' => x ++ sep ++ join sep l'
  end.

Definition repr_char (q : ascii) (a : ascii) : string :=
  let n := nat_of_ascii a in
  if (Ascii.eqb a q || Ascii.eqb a "\")%bool then String "\" (String a "")
  else if Nat.eqb n 9 then "\t"
  else if Nat.eqb n 10 then "\n"
  else if Nat.eqb n 13 then "\r"
  else if (Nat.ltb n 32 || Nat.leb 127 n)%bool then
    String "\" (String "x" (String (ascii_of_nat
      (let h := (n / 16)%nat in if Nat.ltb h 10 then 48 + h else 87 + h)%nat)
      (String (ascii_of_nat
      (let h := (n mod 16)%nat in if Nat.ltb h 10 then 48 + h else 87 + h)%nat) "")))
  else String a "".

Fixpoint str_mem (a : ascii) (s : string) : bool :=
  match s with
  | EmptyString => false
  | String b s' => (Ascii.eqb a b || str_mem a s')%bool
  end.

Fixpoint str_concat_map (f : ascii -> string) (s : string) : string :=
  match s with
  | EmptyString => EmptyString
  | String a s' => f a ++ str_concat_map f s'
  end.

(** [repr(s)] of a byte string: single quotes unless the text has a single
    quote and no double quote. *)
Definition repr_str (s : string) : string :=
  let double_quote := ascii_of_nat 34 in
  let q := if (str_mem "'" s && negb (str_mem double_quote s))%bool
           then double_quote else "'"%char in
  String q (str_concat_map (repr_char q) s) ++ String q "".

Definition str_of_Z (n : Z) : string :=
  NilZero.string_of_int (Z.to_int n).

(** [repr(v)]; [py_str] below is [str(v)], what ["%s" % v] renders.  Only a
    list or dict in a formatted position is rendered through [repr]; its
    strings are shown as byte strings and its integers as machine
    integers. *)
Fixpoint py_repr (v : value) : string :=
  match v with
  | VNone => "None"
  | VBool true => "True"
  | VBool false => "False"
  | VInt n => str_of_Z n
  | VStr s => repr_str s
  | VList l => "[" ++ join ", " (map py_repr l) ++ "]"
  | VDict d =>
      "{" ++ join ", "
        (map (fun kv : string * value =>
                repr_str (fst kv) ++ ": " ++ py_repr (snd kv)) d) ++ "}"
  end.

Definition py_str (v : value) : string :=
  match v with
  | VStr s => s
  | _ => py_repr v
  end.

(** ** Outcomes *)

(** The Python exceptions that can escape a function of the module. *)
Inductive exn : Type :=
| KeyError | AttributeError | TypeError | ValueError | NameError.

(** What [module.fail_json] is called with: the run ends there. *)
Inductive failure : Type :=
| TooManyRows (how_many : nat)
| HttpFailure (fn : string) (end_point : string) (status_code : Z)
| UnknownFailure (fn : string) (end_point : string).

Inductive result (A : Type) : Type :=
| Ret (a : A)
| Raise (e : exn)
| FailJson (f : failure).
Arguments Ret {A} a.
Arguments Raise {A} e.
Arguments FailJson {A} f.

Definition rbind {A B : Type} (r : result A) (k : A -> result B) : result B :=
  match r with
  | Ret a => k a
  | Raise e => Raise e
  | FailJson f => FailJson f
  end.

Notation "'let*' x ':=' c 'in' k" := (rbind c (fun x => k))
  (at level 10, x pattern, c at level 100, k at level 200).

(** [v[k]] for a string key: only a dict can be subscripted that way. *)
Definition getitem (v : value) (k : string) : result value :=
  match v with
  | VDict d => match Dict.get k d with Some x => Ret x | None => Raise KeyError end
  | _ => Raise TypeError
  end.

Definition getparam (params : dict) (k : string) : result value :=
  match Dict.get k params with Some x => Ret x | None => Raise KeyError end.

(** ** Module constants *)

Definition ansible_specific_parameters : list string :=
  ["state"; "api_base_url"; "validate_certs"; "cyberark_session";
   "identified_by"; "logging_level"; "logging_file"; "new_secret";
   "secret_management.management_action"; "secret_management.new_secret";
   "management_action"].

Definition cyberark_nonremovable_properties : list string :=
  ["createdTime"; "id"; "name"; "lastModifiedTime"; "safeName"; "secretType"].

Definition removal_value : value := VStr "NO_VALUE".

Definition cyberark_reference_fieldnames : list (string * string) :=
  [("username", "userName");
   ("safe", "safeName");
   ("platform_id", "platformId");
   ("secret_type", "secretType");
   ("platform_account_properties", "platformAccountProperties");
   ("secret_management", "secretManagement");
   ("manual_management_reason", "manualManagementReason");
   ("automatic_management_enabled", "automaticManagementEnabled")].

Definition ansible_reference_fieldnames : list (string * string) :=
  [("userName", "username");
   ("safeName", "safe");
   ("platformId", "platform_id");
   ("secretType", "secret_type");
   ("platformAccountProperties", "platform_account_properties");
   ("secretManagement", "secret_management");
   ("manualManagementReason", "manual_management_reason");
   ("automaticManagementEnabled", "automatic_management_enabled")].

(** ** Field mapper *)

(** [referenced_value(field, dct, keys, default)]; every call site passes
    [dct]'s own keys or none, so membership is membership in [dct]. *)
Definition referenced_value {A : Type} (field : string)
    (dct : list (string * A)) (default : A) : A :=
  match Dict.get field dct with
  | Some v => v
  | None => default
  end.

(** The body of [deep_get]'s loop.  [result_dct] starts as the empty dict;
    an empty [result_dct] is replaced by [dct] at every segment; [.keys()]
    on anything but a dict is an AttributeError, which the [except KeyError]
    clause does not catch.  [default = None] stands for [_empty]. *)
Fixpoint deep_get_loop (dct result_dct : value) (path : list string)
    (default : option value) (use_reference_table : bool) : result value :=
  match path with
  | [] => Ret result_dct
  | key :: path' =>
      let key_field :=
        if use_reference_table
        then referenced_value key cyberark_reference_fieldnames key
        else key in
      match result_dct with
      | VDict d =>
          let result_dct1 := if Nat.eqb (List.length d) 0 then dct else result_dct in
          match result_dct1 with
          | VDict d1 =>
              match Dict.get key_field d1 with
              | Some v => deep_get_loop dct v path' default use_reference_table
              | None =>
                  match Dict.get key d1 with
                  | Some v => deep_get_loop dct v path' default use_reference_table
                  | None =>
                      match default with
                      | None => Raise KeyError
                      | Some dv => Ret dv
                      end
                  end
              end
          | _ => Raise AttributeError
          end
      | _ => Raise AttributeError
      end
  end.

Definition deep_get (dct : value) (dotted_path : string)
    (default : option value) (use_reference_table : bool) : result value :=
  deep_get_loop dct (VDict []) (split_on "." dotted_path) default
    use_reference_table.

(** ** Patch builder *)

Inductive op_kind : Type := Add | Replace | Remove.

(** One entry of [payload["Operations"]]; [remove] carries no value. *)
Record operation : Type := mkOp {
  op : op_kind;
  path : string;
  op_value : option value
}.

Definition op_add (p : string) (v : value) : operation := mkOp Add p (Some v).
Definition op_replace (p : string) (v : value) : operation := mkOp Replace p (Some v).
Definition op_remove (p : string) : operation := mkOp Remove p None.

(** The if/elif that decides the operation for one path (lines 164-173 for
    a child, 176-184 for a top-level field; [child] switches on the extra
    [is not None] test of line 171). *)
Definition decide_operation (child : bool) (path_value : string)
    (existing_value parm_value : value) : list operation :=
  if negb (is_none existing_value) then
    if py_eq parm_value removal_value then [op_remove path_value]
    else if negb (py_eq existing_value parm_value)
         then [op_replace path_value parm_value]
         else []
  else if ((negb child || negb (is_none parm_value))
           && negb (py_eq parm_value removal_value))%bool
       then [op_add path_value parm_value]
       else [].

(** The inner loop over the keys of a dict-valued parameter. *)
Fixpoint child_operations (parameter_name cyberark_property_name : string)
    (existing_account_value : value) (children : dict)
    : result (list operation) :=
  match children with
  | [] => Ret []
  | (child_parm_name, child_module_parm_value) :: rest =>
      let nested_parm_name := parameter_name ++ "." ++ child_parm_name in
      if negb (str_in nested_parm_name ansible_specific_parameters) then
        let child_cyberark_property_name :=
          referenced_value child_parm_name cyberark_reference_fieldnames
            child_parm_name in
        match existing_account_value with
        | VDict e =>
            let child_existing_account_value :=
              referenced_value child_cyberark_property_name e VNone in
            let path_value :=
              "/" ++ cyberark_property_name ++ "/" ++ child_cyberark_property_name in
            let* more := child_operations parameter_name cyberark_property_name
                           existing_account_value rest in
            Ret (decide_operation true path_value
                   child_existing_account_value child_module_parm_value
                 ++ more)%list
        | _ => Raise AttributeError
        end
      else child_operations parameter_name cyberark_property_name
             existing_account_value rest
  end.

(** The body of the outer loop for one supplied parameter, lines 155-184:
    the inner loop for a dict, the if/elif for anything else. *)
Definition parameter_operations (parameter_name cyberark_property_name : string)
    (module_parm_value existing_account_value : value)
    : result (list operation) :=
  match module_parm_value with
  | VDict children =>
      child_operations parameter_name cyberark_property_name
        existing_account_value children
  | _ =>
      Ret (decide_operation false ("/" ++ cyberark_property_name)
             existing_account_value module_parm_value)
  end.

(** The loop of [update_account] that fills [payload["Operations"]]. *)
Fixpoint update_operations (params : dict) (existing_account : value)
    : result (list operation) :=
  match params with
  | [] => Ret []
  | (parameter_name, module_parm_value) :: rest =>
      if (negb (str_in parameter_name ansible_specific_parameters)
          && negb (is_none module_parm_value))%bool then
        let cyberark_property_name :=
          referenced_value parameter_name cyberark_reference_fieldnames
            parameter_name in
        match existing_account with
        | VDict e =>
            let existing_account_value :=
              referenced_value cyberark_property_name e VNone in
            let* ops :=
              parameter_operations parameter_name cyberark_property_name
                module_parm_value existing_account_value in
            let* more := update_operations rest existing_account in
            Ret (ops ++ more)%list
        | _ => Raise AttributeError
        end
      else update_operations rest existing_account
  end.

(** ** The HTTP collaborator *)

(** What [open_url] is called with.  [req_data] is the value handed to
    [json.dumps]; the Content-Type header is the same in every call. *)
Record request : Type := mkReq {
  req_method : string;
  req_url : string;
  req_token : value;
  req_data : option value;
  req_validate_certs : value
}.

(** What [open_url] and the reading of its response do: a response
    whose body [response.read()] delivers (status code, and the body as
    [json.loads] reads it, [None] when it is not JSON), an [HTTPError]
    with its code and body, an [httplib.HTTPException] (which has no
    [code] attribute), any other exception of [open_url], a response
    whose [read()] raises [httplib.IncompleteRead] (an [HTTPException],
    the body being cut short), or a response whose [read()] raises
    another exception (a socket or TLS error).  The last two differ from
    [Response] only in the functions that read the body inside their
    [try]: [get_account], [update_account] and [add_account]. *)
Inductive reply : Type :=
| Response (code : Z) (body : option value)
| HTTPError (code : Z) (body : option value)
| HTTPException
| OtherError
| IncompleteRead (code : Z)
| ReadError (code : Z).

(** Computations that log the requests they send, in order. *)
Definition io (A : Type) : Type := (list request * result A)%type.

Definition io_ret {A : Type} (a : A) : io A := ([], Ret a).

Definition io_bind {A B : Type} (m : io A) (k : A -> io B) : io B :=
  match m with
  | (l, Ret a) => let '(l', r) := k a in ((l ++ l')%list, r)
  | (l, Raise e) => (l, Raise e)
  | (l, FailJson f) => (l, FailJson f)
  end.

Definition lift {A : Type} (r : result A) : io A := ([], r).

Notation "x <- c ;; k" := (io_bind c (fun x => k))
  (at level 61, c at next level, right associativity).
Notation "' pat <- c ;; k" := (io_bind c (fun x => match x with pat => k end))
  (at level 61, pat pattern, c at next level, right associativity).

(** [api_base_url + end_point] *)
Definition request_url (api_base_url : value) (end_point : string)
    : result string :=
  match api_base_url with
  | VStr b => Ret (b ++ end_point)
  | _ => Raise TypeError
  end.

Definition operation_value (o : operation) : value :=
  match op o with
  | Add =>
      VDict ([("op", VStr "add")]
             ++ match op_value o with Some v => [("value", v)] | None => [] end
             ++ [("path", VStr (path o))])
  | Replace =>
      VDict ([("op", VStr "replace")]
             ++ match op_value o with Some v => [("value", v)] | None => [] end
             ++ [("path", VStr (path o))])
  | Remove => VDict [("op", VStr "remove"); ("path", VStr (path o))]
  end.

(** ** Rotation rules *)

(** The if/elif chain of [reset_account_if_needed], lines 353-374: the
    end point and payload of the rotation call, or [None] when [end_point]
    stays [None].  [existing_account["id"]] is only evaluated inside the
    branch that fires. *)
Definition rotation_choice (params : dict) (existing_account : value)
    : result (option (string * dict)) :=
  let* management_action :=
    deep_get (VDict params) "secret_management.management_action"
      (Some (VStr "NOT_FOUND")) false in
  let* cpm_new_secret :=
    deep_get (VDict params) "secret_management.new_secret"
      (Some (VStr "NOT_FOUND")) false in
  if (py_eq management_action (VStr "change")
      && negb (is_none cpm_new_secret)
      && negb (py_eq cpm_new_secret (VStr "NOT_FOUND")))%bool then
    let* id := getitem existing_account "id" in
    Ret (Some ("/PasswordVault/API/Accounts/" ++ py_str id ++ "/SetNextPassword",
               [("ChangeImmediately", VBool false);
                ("NewCredentials", cpm_new_secret)]))
  else if (py_eq management_action (VStr "change_immediately")
           && (py_eq cpm_new_secret (VStr "NOT_FOUND")
               || is_none cpm_new_secret))%bool then
    let* id := getitem existing_account "id" in
    Ret (Some ("/PasswordVault/API/Accounts/" ++ py_str id ++ "/Change",
               [("ChangeEntireGroup", VBool false)]))
  else if (py_eq management_action (VStr "change_immediately")
           && (negb (is_none cpm_new_secret)
               && negb (py_eq cpm_new_secret (VStr "NOT_FOUND"))))%bool then
    let* id := getitem existing_account "id" in
    Ret (Some ("/PasswordVault/API/Accounts/" ++ py_str id ++ "/SetNextPassword",
               [("ChangeImmediately", VBool true);
                ("NewCredentials", cpm_new_secret)]))
  else if py_eq management_action (VStr "reconcile") then
    let* id := getitem existing_account "id" in
    Ret (Some ("/PasswordVault/API/Accounts/" ++ py_str id ++ "/Reconcile", []))
  else
    match Dict.get "new_secret" params with
    | Some new_secret =>
        if negb (is_none new_secret) then
          let* id := getitem existing_account "id" in
          Ret (Some ("/PasswordVault/API/Accounts/" ++ py_str id
                       ++ "/Password/Update",
                     [("ChangeEntireGroup", VBool true);
                      ("NewCredentials", new_secret)]))
        else Ret None
    | None => Ret None
    end.

(** ** Lookup: the part of [get_account] before its [try] *)

(** [urllib.quote(v)]: None is a TypeError; a falsy non-string is returned
    unchanged and the [+] that follows is a TypeError; any other non-string
    has no [rstrip]. *)
Definition quote_value (v : value) : result string :=
  match v with
  | VStr s => Ret (quote s)
  | VNone | VBool false | VInt 0 | VList [] | VDict [] => Raise TypeError
  | _ => Raise AttributeError
  end.

(** [v.split(",")] *)
Definition split_value (v : value) (c : ascii) : result (list string) :=
  match v with
  | VStr s => Ret (split_on c s)
  | _ => Raise AttributeError
  end.

(** The loop of lines 459-461. *)
Fixpoint search_string_loop (params : dict) (identified_by_fields : list string)
    (search_string : option string) : result (option string) :=
  match identified_by_fields with
  | [] => Ret search_string
  | field :: rest =>
      if negb (str_in field ansible_specific_parameters) then
        let* v := deep_get (VDict params) field (Some (VStr "NOT FOUND")) false in
        search_string_loop params rest
          (Some ((match search_string with
                  | Some s => s ++ " "
                  | None => ""
                  end) ++ py_str v))
      else search_string_loop params rest search_string
  end.

Definition accounts_end_point (search_string safe_filter : option string)
    : string :=
  match search_string, safe_filter with
  | Some s, Some f =>
      "/PasswordVault/api/accounts?filter=" ++ f ++ "&search=" ++ quote (lstrip s)
  | Some s, None => "/PasswordVault/api/accounts?search=" ++ lstrip s
  | None, Some f => "/PasswordVault/api/accounts?filter=" ++ f
  | None, None => "/PasswordVault/api/accounts?filter=None"
  end.

(** The inner loop of lines 508-516 for one record: [found] is the flag,
    [break] is the early [Ret false].  The second lookup is the argument of
    the [logging.debug] call, evaluated whether or not logging is on; the
    third sits behind the short-circuiting [and]. *)
Fixpoint record_matches (params : dict) (account_record : value)
    (identified_by_fields : list string) (found : bool) : result bool :=
  match identified_by_fields with
  | [] => Ret found
  | field :: rest =>
      let* record_field_value :=
        deep_get account_record field (Some (VStr "NOT FOUND")) true in
      let* _ := deep_get (VDict params) field (Some (VStr "NOT FOUND")) true in
      if negb (py_eq record_field_value (VStr "NOT FOUND")) then
        let* parm := deep_get (VDict params) field (Some (VStr "NOT FOUND")) false in
        if py_eq record_field_value parm
        then record_matches params account_record rest true
        else Ret false
      else Ret false
  end.

(** The outer loop of lines 505-520. *)
Fixpoint count_records (params : dict) (identified_by_fields : list string)
    (records : list value) (how_many : nat) (first_record_found : value)
    : result (nat * value) :=
  match records with
  | [] => Ret (how_many, first_record_found)
  | account_record :: rest =>
      let* found := record_matches params account_record identified_by_fields false in
      if found then
        count_records params identified_by_fields rest (S how_many)
          (if is_none first_record_found then account_record
           else first_record_found)
      else count_records params identified_by_fields rest how_many
             first_record_found
  end.

Fixpoint chars (s : string) : list value :=
  match s with
  | EmptyString => []
  | String a s' => VStr (String a "") :: chars s'
  end.

(** What a [for] loop over [v] visits. *)
Definition iterate (v : value) : result (list value) :=
  match v with
  | VList l => Ret l
  | VDict d => Ret (map VStr (Dict.keys d))
  | VStr s => Ret (chars s)
  | _ => Raise TypeError
  end.

(** Lines 494-527: reading the response of the search. *)
Definition read_accounts (params : dict) (identified_by_fields : list string)
    (code : Z) (body : option value) : result (bool * value * Z) :=
  match body with
  | None => Raise ValueError
  | Some accounts_data =>
      let* count := getitem accounts_data "count" in
      if py_eq count (VInt 0) then Ret (false, VNone, code)
      else
        let* value := getitem accounts_data "value" in
        let* records := iterate value in
        let* hf := count_records params identified_by_fields records 0%nat VNone in
        if Nat.ltb 1 (fst hf) then FailJson (TooManyRows (fst hf))
        else Ret (Nat.eqb (fst hf) 1, snd hf, code)
  end.

(** [except Exception]: every Python exception raised inside the [try]
    ends in [fail_json]; [fail_json] itself (SystemExit) passes through. *)
Definition except_exception {A : Type} (fn end_point : string) (r : result A)
    : result A :=
  match r with
  | Raise _ => FailJson (UnknownFailure fn end_point)
  | _ => r
  end.

Record prepared : Type := mkPrepared {
  p_fields : list string;
  p_end_point : string;
  p_api_base_url : value;
  p_validate_certs : value;
  p_token : value
}.

(** Lines 455-483 of [get_account], in the order they run. *)
Definition get_account_prepare (params : dict) : result prepared :=
  let* identified_by := getparam params "identified_by" in
  let* identified_by_fields := split_value identified_by "," in
  let* safe_filter :=
    match Dict.get "safe" params with
    | Some v =>
        if negb (is_none v) then
          let* q := quote_value v in Ret (Some (quote "safeName eq " ++ q))
        else Ret None
    | None => Ret None
    end in
  let* search_string := search_string_loop params identified_by_fields None in
  let* safe := getparam params "safe" in
  let* cyberark_session := getparam params "cyberark_session" in
  let* api_base_url := getitem cyberark_session "api_base_url" in
  let* validate_certs := getitem cyberark_session "validate_certs" in
  let* state := getparam params "state" in
  let end_point := accounts_end_point search_string safe_filter in
  let* token := getitem cyberark_session "token" in
  Ret (mkPrepared identified_by_fields end_point api_base_url validate_certs token).

(** [AnsibleModule(argument_spec=fields)]: one entry of [fields] in
    [main], with its default ([None] when it declares none) and the names
    of its sub-options. *)
Record field_spec : Type := mkField {
  f_name : string;
  f_default : value;
  f_options : list string
}.

Definition fields : list field_spec :=
  [mkField "state" (VStr "present") [];
   mkField "logging_level" VNone [];
   mkField "logging_file" (VStr "/tmp/ansible_cyberark.log") [];
   mkField "api_base_url" VNone [];
   mkField "validate_certs" (VBool true) [];
   mkField "cyberark_session" VNone [];
   mkField "identified_by" (VStr "username,address,platform_id") [];
   mkField "safe" VNone [];
   mkField "platform_id" VNone [];
   mkField "address" VNone [];
   mkField "name" VNone [];
   mkField "secret_type" (VStr "password") [];
   mkField "secret" VNone [];
   mkField "new_secret" VNone [];
   mkField "username" VNone [];
   mkField "secret_management" VNone
     ["automatic_management_enabled"; "manual_management_reason";
      "management_action"; "new_secret"];
   mkField "remote_machines_access" VNone
     ["remote_machines"; "access_restricted_to_remote_machines"];
   mkField "platform_account_properties" VNone []].

(** The host fills a supplied dict that has declared sub-options with
    [None] for the sub-options the caller left out. *)
Definition fill_options (options : list string) (v : value) : value :=
  match v with
  | VDict d =>
      VDict (d ++ map (fun k => (k, VNone))
                    (filter (fun k => negb (Dict.mem k d)) options))%list
  | _ => v
  end.

(** [module.params] for the caller's arguments [args]: every declared
    field is present, with the caller's value, else its default, else
    [None].  (Type coercion and validation by the host are not modelled:
    [args] is taken to be well typed.) *)
Definition module_params (args : dict) : dict :=
  map (fun f =>
         (f_name f,
          match Dict.get (f_name f) args with
          | Some v => fill_options (f_options f) v
          | None => f_default f
          end)) fields.

(** The loop of [add_account], lines 243-253. *)
Fixpoint add_payload (params items payload : dict) : result dict :=
  match items with
  | [] => Ret payload
  | (parameter_name, v) :: rest =>
      if (negb (str_in parameter_name ansible_specific_parameters)
          && negb (is_none v))%bool then
        match Dict.get parameter_name cyberark_reference_fieldnames with
        | None =>
            let* module_parm_value :=
              deep_get (VDict params) parameter_name None false in
            add_payload params rest
              (if negb (py_eq module_parm_value removal_value)
               then Dict.set parameter_name module_parm_value payload
               else payload)
        | Some cyberark_name =>
            let* module_parm_value :=
              deep_get (VDict params) parameter_name None true in
            add_payload params rest
              (if negb (py_eq module_parm_value removal_value)
               then Dict.set cyberark_name module_parm_value payload
               else payload)
        end
      else add_payload params rest payload
  end.

(** What [module.exit_json] is called with. *)
Record exit : Type := mkExit {
  changed : bool;
  cyberark_account : value;
  status_code : Z
}.

Section Operations.

(** The vault, as [open_url] reaches it. *)
Variable open_url : request -> reply.

Definition send (r : request) : io reply := ([r], Ret (open_url r)).

(** [get_account]: the body is read and parsed inside the [try].  The
    handler of [HTTPError] and [HTTPException] reads [.code], which an
    [HTTPException] (a body cut short included) does not have. *)
Definition get_account (params : dict) : io (bool * value * Z) :=
  p <- lift (get_account_prepare params) ;;
  match request_url (p_api_base_url p) (p_end_point p) with
  | Ret url =>
      rep <- send (mkReq "GET" url (p_token p) None (p_validate_certs p)) ;;
      match rep with
      | Response code body =>
          lift (except_exception "get_account" (p_end_point p)
                  (read_accounts params (p_fields p) code body))
      | HTTPError code _ =>
          if Z.eqb code 404 then io_ret (false, VNone, code)
          else lift (FailJson (HttpFailure "get_account" (p_end_point p) code))
      | HTTPException => lift (Raise AttributeError)
      | OtherError =>
          lift (FailJson (UnknownFailure "get_account" (p_end_point p)))
      | IncompleteRead _ => lift (Raise AttributeError)
      | ReadError _ =>
          lift (FailJson (UnknownFailure "get_account" (p_end_point p)))
      end
  | _ => lift (FailJson (UnknownFailure "get_account" (p_end_point p)))
  end.

(** [update_account]: the body of the answer to the PATCH is read and
    parsed inside the [try], with the same handlers. *)
Definition update_account (params : dict) (existing_account : value)
    : io (bool * value * Z) :=
  cyberark_session <- lift (getparam params "cyberark_session") ;;
  api_base_url <- lift (getitem cyberark_session "api_base_url") ;;
  validate_certs <- lift (getitem cyberark_session "validate_certs") ;;
  state <- lift (getparam params "state") ;;
  id <- lift (getitem existing_account "id") ;;
  let end_point := "/PasswordVault/api/Accounts/" ++ py_str id in
  token <- lift (getitem cyberark_session "token") ;;
  operations <- lift (update_operations params existing_account) ;;
  match operations with
  | [] => io_ret (false, existing_account, -1)
  | _ =>
      match request_url api_base_url end_point with
      | Ret url =>
          rep <- send (mkReq "PATCH" url token
                         (Some (VList (map operation_value operations)))
                         validate_certs) ;;
          match rep with
          | Response code (Some body) => io_ret (true, body, code)
          | Response code None =>
              lift (FailJson (UnknownFailure "update_account" end_point))
          | HTTPError code _ =>
              lift (FailJson (HttpFailure "update_account" end_point code))
          | HTTPException => lift (Raise AttributeError)
          | OtherError =>
              lift (FailJson (UnknownFailure "update_account" end_point))
          | IncompleteRead _ => lift (Raise AttributeError)
          | ReadError _ =>
              lift (FailJson (UnknownFailure "update_account" end_point))
          end
      | _ => lift (FailJson (UnknownFailure "update_account" end_point))
      end
  end.

(** The [except Exception] handler of [add_account] names [traceback],
    which the module never imports: it ends in a NameError. *)
Definition add_account (params : dict) : io (bool * value * Z) :=
  cyberark_session <- lift (getparam params "cyberark_session") ;;
  api_base_url <- lift (getitem cyberark_session "api_base_url") ;;
  validate_certs <- lift (getitem cyberark_session "validate_certs") ;;
  let end_point := "/PasswordVault/api/Accounts" in
  token <- lift (getitem cyberark_session "token") ;;
  safe <- lift (getparam params "safe") ;;
  payload <- lift (add_payload params params [("safeName", safe)]) ;;
  match request_url api_base_url end_point with
  | Ret url =>
      rep <- send (mkReq "POST" url token (Some (VDict payload))
                     validate_certs) ;;
      match rep with
      | Response code (Some body) => io_ret (true, body, code)
      | Response code None => lift (Raise NameError)
      | HTTPError code _ =>
          lift (FailJson (HttpFailure "add_account" end_point code))
      | HTTPException => lift (Raise AttributeError)
      | OtherError => lift (Raise NameError)
      | IncompleteRead _ => lift (Raise AttributeError)
      | ReadError _ => lift (Raise NameError)
      end
  | _ => lift (Raise NameError)
  end.

(** [delete_account] never reads the body of the response. *)
Definition delete_account (params : dict) (existing_account : value)
    : io (bool * value * Z) :=
  cyberark_session <- lift (getparam params "cyberark_session") ;;
  api_base_url <- lift (getitem cyberark_session "api_base_url") ;;
  validate_certs <- lift (getitem cyberark_session "validate_certs") ;;
  id <- lift (getitem existing_account "id") ;;
  let end_point := "/PasswordVault/api/Accounts/" ++ py_str id in
  token <- lift (getitem cyberark_session "token") ;;
  match request_url api_base_url end_point with
  | Ret url =>
      rep <- send (mkReq "DELETE" url token None validate_certs) ;;
      match rep with
      | Response code _ => io_ret (true, VNone, code)
      | HTTPError code _ =>
          lift (FailJson (HttpFailure "delete_account" end_point code))
      | HTTPException => lift (Raise AttributeError)
      | OtherError =>
          lift (FailJson (UnknownFailure "delete_account" end_point))
      | IncompleteRead code => io_ret (true, VNone, code)
      | ReadError code => io_ret (true, VNone, code)
      end
  | _ => lift (FailJson (UnknownFailure "delete_account" end_point))
  end.

(** The [try] of [reset_account_if_needed] once [open_url] has answered:
    the handler of an [HTTPError] reads its body with [json.load]; the
    unknown-error message of this function says [delete_account]. *)
Definition reset_reply (end_point : string) (rep : reply)
    : result (bool * value * Z) :=
  match rep with
  | Response code _ => Ret (true, VNone, code)
  | HTTPError code (Some _) =>
      FailJson (HttpFailure "reset_account" end_point code)
  | HTTPError code None => Raise ValueError
  | HTTPException => Raise AttributeError
  | OtherError => FailJson (UnknownFailure "delete_account" end_point)
  | IncompleteRead code => Ret (true, VNone, code)
  | ReadError code => Ret (true, VNone, code)
  end.

Definition reset_account_if_needed (params : dict) (existing_account : value)
    : io (bool * value * Z) :=
  cyberark_session <- lift (getparam params "cyberark_session") ;;
  api_base_url <- lift (getitem cyberark_session "api_base_url") ;;
  validate_certs <- lift (getitem cyberark_session "validate_certs") ;;
  choice <- lift (rotation_choice params existing_account) ;;
  match choice with
  | Some (end_point, payload) =>
      token <- lift (getitem cyberark_session "token") ;;
      match request_url api_base_url end_point with
      | Ret url =>
          rep <- send (mkReq "POST" url token (Some (VDict payload))
                         validate_certs) ;;
          lift (reset_reply end_point rep)
      | _ => lift (FailJson (UnknownFailure "delete_account" end_point))
      end
  | None => io_ret (false, VDict [], -1)
  end.

(** [main], from the caller's arguments to [module.exit_json]. *)
Definition main (args : dict) : io exit :=
  let params := module_params args in
  state <- lift (getparam params "state") ;;
  '(found, account_record, status_code) <- get_account params ;;
  if py_eq state (VStr "present") then
    '(changed, result, status_code) <-
      (if (found : bool) then update_account params account_record
       else add_account params) ;;
    '(account_reset, _, _) <- reset_account_if_needed params result ;;
    io_ret (mkExit (if (account_reset : bool) then true else changed)
              result status_code)
  else if (found && py_eq state (VStr "absent"))%bool then
    '(changed, result, status_code) <- delete_account params account_record ;;
    io_ret (mkExit changed result status_code)
  else io_ret (mkExit false account_record status_code).

End Operations.

(** ** Specification-side definitions *)

(** The five rotation rules as the specification lists them. *)
Inductive rotation_rule : Type :=
| SetNextPassword (change_immediately : bool) (new_credentials : value)
| Change
| Reconcile
| PasswordUpdate (new_credentials : value).

(** A looked-up secret counts as given when it is neither [None] nor the
    lookup's own default text. *)
Definition explicit_secret (v : value) : bool :=
  (negb (is_none v) && negb (py_eq v (VStr "NOT_FOUND")))%bool.

(** The priority list: each rule with the condition under which it applies. *)
Definition rotation_rules (management_action cpm_new_secret : value)
    (new_secret : option value) : list (bool * rotation_rule) :=
  [ ((py_eq management_action (VStr "change")
      && explicit_secret cpm_new_secret)%bool,
     SetNextPassword false cpm_new_secret);
    ((py_eq management_action (VStr "change_immediately")
      && negb (explicit_secret cpm_new_secret))%bool,
     Change);
    ((py_eq management_action (VStr "change_immediately")
      && explicit_secret cpm_new_secret)%bool,
     SetNextPassword true cpm_new_secret);
    (py_eq management_action (VStr "reconcile"), Reconcile);
    (match new_secret with Some v => negb (is_none v) | None => false end,
     PasswordUpdate (match new_secret with Some v => v | None => VNone end)) ].

(** First match wins. *)
Fixpoint first_match {A : Type} (rules : list (bool * A)) : option A :=
  match rules with
  | [] => None
  | (true, a) :: _ => Some a
  | (false, _) :: rest => first_match rest
  end.

(** End point and body of the call a rule stands for. *)
Definition rule_request (id : value) (r : rotation_rule) : string * dict :=
  let account := "/PasswordVault/API/Accounts/" ++ py_str id in
  match r with
  | SetNextPassword now secret =>
      (account ++ "/SetNextPassword",
       [("ChangeImmediately", VBool now); ("NewCredentials", secret)])
  | Change => (account ++ "/Change", [("ChangeEntireGroup", VBool false)])
  | Reconcile => (account ++ "/Reconcile", [])
  | PasswordUpdate secret =>
      (account ++ "/Password/Update",
       [("ChangeEntireGroup", VBool true); ("NewCredentials", secret)])
  end.

(** The identity fields that reach the search string. *)
Definition search_fields (identified_by_fields : list string) : list string :=
  filter (fun f => negb (str_in f ansible_specific_parameters))
    identified_by_fields.

(** The token an undotted identity field contributes to the search
    string: the text of its parameter, or of the lookup default. *)
Definition field_token (params : dict) (field : string) : string :=
  match Dict.get field params with
  | Some v => py_str v
  | None => "NOT FOUND"
  end.






(** A string made of whitespace only, and a string that starts with a
    whitespace character. *)
Fixpoint all_space (s : string) : bool :=
  match s with
  | EmptyString => true
  | String a s' => (is_space a && all_space s')%bool
  end.

Definition starts_with_space (s : string) : bool :=
  match s with
  | EmptyString => false
  | String a _ => is_space a
  end.

Definition returns {A : Type} (r : result A) : bool :=
  match r with Ret _ => true | _ => false end.

(** The three lookups the comparison of one field makes all return. *)
Definition lookups_return (params : dict) (account_record : value)
    (field : string) : bool :=
  (returns (deep_get account_record field (Some (VStr "NOT FOUND")) true)
   && returns (deep_get (VDict params) field (Some (VStr "NOT FOUND")) true)
   && returns (deep_get (VDict params) field (Some (VStr "NOT FOUND")) false))%bool.

(** Modelled from the spec: how the vault applies a PatchOperation list.
    The module only sends the list; the spec's data model gives an
    operation a JSON-pointer-style path and, for add and replace, a value.
    A pointer [/a] names member [a] of the record and [/a/b] member [b] of
    the sub-object [a]; add and replace set the member, remove deletes it. *)
Definition pointer_segments (p : string) : list string :=
  match split_on "/" p with
  | [] => []
  | _ :: segments => segments
  end.

(** Modelled from the spec: the effect of one operation on the member it
    names. *)
Definition apply_member (o : operation) (name : string) (d : dict) : dict :=
  match op o, op_value o with
  | Remove, _ => Dict.remove name d
  | _, Some v => Dict.set name v d
  | _, None => d
  end.

(** Modelled from the spec: one operation applied to a record; a pointer
    that names nothing the record has leaves the record as it is. *)
Definition apply_operation (o : operation) (record : dict) : dict :=
  match pointer_segments (path o) with
  | [name] => apply_member o name record
  | [parent; name] =>
      match Dict.get parent record with
      | Some (VDict sub) =>
          Dict.set parent (VDict (apply_member o name sub)) record
      | _ => record
      end
  | _ => record
  end.

(** Modelled from the spec: the operations of a patch applied in order. *)
Definition apply_patch (ops : list operation) (record : dict) : dict :=
  fold_left (fun r o => apply_operation o r) ops record.

Definition apply_members (name : string) (ops : list operation) (d : dict)
    : dict :=
  fold_left (fun d o => apply_member o name d) ops d.

(** The existing value the builder reads for a vault name. *)
Definition slot (name : string) (d : dict) : value :=
  referenced_value name d VNone.

(** A caller parameter the patch builder looks at. *)
Definition supplied (parameter_name : string) (v : value) : bool :=
  (negb (str_in parameter_name ansible_specific_parameters)
   && negb (is_none v))%bool.

Definition vault_name (parameter_name : string) : string :=
  referenced_value parameter_name cyberark_reference_fieldnames parameter_name.

(** The vault fields the builder resolves the supplied parameters to. *)
Definition targets (params : dict) : list string :=
  map (fun kv => vault_name (fst kv))
    (filter (fun kv => supplied (fst kv) (snd kv)) params).

(** The members of a sub-object the builder resolves its children to. *)
Definition child_targets (parameter_name : string) (children : dict)
    : list string :=
  map (fun kv => vault_name (fst kv))
    (filter (fun kv =>
               negb (str_in (parameter_name ++ "." ++ fst kv)
                       ansible_specific_parameters)) children).

Fixpoint distinct (l : list string) : bool :=
  match l with
  | [] => true
  | x :: l' => (negb (str_in x l') && distinct l')%bool
  end.

Definition plain_name (s : string) : bool := negb (str_mem "/" s).

(** A value as Python builds it: the keys of every dict are distinct. *)
Fixpoint wf_value (v : value) : bool :=
  match v with
  | VList l => forallb wf_value l
  | VDict d =>
      (distinct (map fst d)
       && (fix all (d : list (string * value)) : bool :=
             match d with
             | [] => true
             | (_, x) :: d' => (wf_value x && all d')%bool
             end) d)%bool
  | _ => true
  end.

(** The side conditions on a supplied parameter: its vault name and the
    vault names of its children are plain and pairwise distinct, and its
    value is one Python can build. *)
Definition regular_parameter (kv : string * value) : bool :=
  (negb (supplied (fst kv) (snd kv))
   || (plain_name (vault_name (fst kv)) && wf_value (snd kv)
       && match snd kv with
          | VDict children =>
              (distinct (child_targets (fst kv) children)
               && forallb plain_name (child_targets (fst kv) children))%bool
          | _ => true
          end))%bool.

(** The side condition on the names alone: the vault name of a supplied
    parameter and the vault names of its children hold no [/]. *)
Definition plain_parameter (kv : string * value) : bool :=
  (negb (supplied (fst kv) (snd kv))
   || (plain_name (vault_name (fst kv))
       && match snd kv with
          | VDict children =>
              forallb plain_name (child_targets (fst kv) children)
          | _ => true
          end))%bool.

(** ** Scenarios *)

Definition session_example : value :=
  VDict [("api_base_url", VStr "https://vault.example");
         ("validate_certs", VBool true);
         ("token", VStr "TOKEN")].

(** The caller's arguments of the create scenario. *)
Definition args_create : dict :=
  [("cyberark_session", session_example);
   ("safe", VStr "S1");
   ("platform_id", VStr "P1");
   ("address", VStr "10.0.0.1");
   ("username", VStr "admin");
   ("identified_by", VStr "username,address,platform_id")].

(** The caller's arguments with a [change] directive, no secret under
    [secret_management], and a bare [new_secret]. *)
Definition args_change_bare_secret : dict :=
  ("new_secret", VStr "s3cret")
    :: ("secret_management", VDict [("management_action", VStr "change")])
    :: args_create.

(** The create payload as the scenario states it, and the create call the
    module really sends for [args_create]. *)
Definition claimed_create_payload : value :=
  VDict [("safeName", VStr "S1");
         ("platformId", VStr "P1");
         ("address", VStr "10.0.0.1");
         ("userName", VStr "admin")].

Definition create_request_example : request :=
  mkReq "POST" "https://vault.example/PasswordVault/api/Accounts"
    (VStr "TOKEN")
    (Some (VDict [("safeName", VStr "S1");
                  ("platformId", VStr "P1");
                  ("address", VStr "10.0.0.1");
                  ("secretType", VStr "password");
                  ("userName", VStr "admin")]))
    (VBool true).

(** Arguments that name three identity fields: [username] is given,
    [address] is declared and left unset, [nickname] is not a parameter. *)
Definition args_unset_fields : dict :=
  [("cyberark_session", session_example);
   ("safe", VStr "S1");
   ("username", VStr "admin");
   ("identified_by", VStr "username,address,nickname")].

(** The record the vault holds for that account. *)
Definition record_items : dict :=
  [("id", VStr "12_3");
   ("name", VStr "Operating System-P1-10.0.0.1-admin");
   ("address", VStr "10.0.0.1");
   ("userName", VStr "admin");
   ("platformId", VStr "P1");
   ("safeName", VStr "S1");
   ("secretType", VStr "password");
   ("secretManagement", VDict [("automaticManagementEnabled", VBool true)]);
   ("createdTime", VInt 1567824520)].

Definition record_example : value := VDict record_items.

(** The same record with one platform property, and arguments whose
    [platform_account_properties] names that property twice: [username]
    is renamed to [userName], [userName] is passed through. *)
Definition record_with_property : dict :=
  Dict.set "platformAccountProperties" (VDict [("userName", VStr "a")])
    record_items.

Definition args_aliased_children : dict :=
  ("platform_account_properties",
   VDict [("username", VStr "a"); ("userName", VStr "b")]) :: args_create.

(** Arguments that move the account to another address and switch
    automatic management off. *)
Definition args_update : dict :=
  [("cyberark_session", session_example);
   ("safe", VStr "S1");
   ("platform_id", VStr "P1");
   ("address", VStr "10.0.0.2");
   ("username", VStr "admin");
   ("secret_management",
    VDict [("automatic_management_enabled", VBool false)])].

Definition accounts_found (records : list value) : value :=
  VDict [("value", VList records);
         ("count", VInt (Z.of_nat (List.length records)))].

(** A vault that holds [records] and accepts every change. *)
Definition vault_with (records : list value) (r : request) : reply :=
  if String.eqb (req_method r) "GET"
  then Response 200 (Some (accounts_found records))
  else Response 201 (Some record_example).

(** A vault whose search answers 404. *)
Definition vault_404 (r : request) : reply :=
  if String.eqb (req_method r) "GET"
  then HTTPError 404 None
  else Response 201 (Some record_example).

(** The value a record holds where a patch path of the builder points:
    [/c] is member [c], [/c/cc] is member [cc] of the sub-object [c];
    [None] when there is no such member. *)
Definition existing_at (record : dict) (p : string) : value :=
  match pointer_segments p with
  | [c] => slot c record
  | [c; cc] =>
      match slot c record with
      | VDict sub => slot cc sub
      | _ => VNone
      end
  | _ => VNone
  end.

(** The caller's arguments of the create scenario with state [absent]. *)
Definition args_absent : dict := ("state", VStr "absent") :: args_create.

(** A vault that finds nothing and cannot be reached for anything else. *)
Definition vault_unreachable (r : request) : reply :=
  if String.eqb (req_method r) "GET"
  then Response 200 (Some (accounts_found []))
  else OtherError.

(** A vault whose search reports a count of zero next to a record. *)
Definition vault_zero_count (r : request) : reply :=
  if String.eqb (req_method r) "GET"
  then Response 200 (Some (VDict [("value", VList [record_example]);
                                  ("count", VInt 0)]))
  else Response 201 (Some record_example).

(** Arguments that ask for a reconcile and nothing else. *)
Definition args_reconcile : dict :=
  ("secret_management", VDict [("management_action", VStr "reconcile")])
    :: args_create.




(** Arguments that identify the account by its user name, its address and
    one of its platform properties, and supply no
    [platform_account_properties]. *)
Definition args_property_identity : dict :=
  [("cyberark_session", session_example);
   ("safe", VStr "S1");
   ("platform_id", VStr "P1");
   ("address", VStr "10.0.0.1");
   ("username", VStr "admin");
   ("identified_by",
    VStr "username,address,platform_account_properties.LogonDomain")].

(** The caller's arguments of the create scenario for a safe whose name
    is the removal sentinel. *)
Definition args_sentinel_safe : dict :=
  ("safe", VStr "NO_VALUE") :: args_create.

(** * Properties *)

(** ** Basic facts *)

Lemma py_eq_str (v : value) (s : string) :
  py_eq v (VStr s) = true <-> v = VStr s.
Proof.
  destruct v; simpl; split; intro H; try discriminate; try congruence.
  - apply String.eqb_eq in H. now subst.
  - inversion H. apply String.eqb_refl.
Qed.

Lemma py_eq_str_false (v : value) (s : string) :
  py_eq v (VStr s) = false <-> v <> VStr s.
Proof.
  split.
  - intros H E. apply py_eq_str in E. congruence.
  - intros H. destruct (py_eq v (VStr s)) eqn:E; [|reflexivity].
    apply py_eq_str in E. contradiction.
Qed.

Lemma is_none_true (v : value) : is_none v = true <-> v = VNone.
Proof. destruct v; simpl; split; congruence. Qed.

Lemma is_none_false (v : value) : is_none v = false <-> v <> VNone.
Proof. destruct v; simpl; split; congruence. Qed.

(** ** Field mapper: [deep_get] *)

(** With a default, a missing key never surfaces as a KeyError. *)
Lemma deep_get_loop_default_no_KeyError (path : list string) :
  forall dct result_dct dv use_reference_table,
    deep_get_loop dct result_dct path (Some dv) use_reference_table
    <> Raise KeyError.
Proof.
  induction path as [|key path IH]; intros dct cur dv r; simpl.
  - discriminate.
  - destruct cur; try discriminate.
    destruct (if Nat.eqb (List.length d) 0 then dct else VDict d);
      try discriminate.
    destruct (Dict.get _ d0); [apply IH|].
    destruct (Dict.get key d0); [apply IH|discriminate].
Qed.

(** Without a default, a first segment missing from the container is
    propagated as a KeyError. *)
Lemma deep_get_loop_missing_raises (dct : dict) (key : string)
    (path : list string) :
  Dict.get key dct = None ->
  deep_get_loop (VDict dct) (VDict []) (key :: path) None false
  = Raise KeyError.
Proof. intros H. simpl. now rewrite H. Qed.

(** The step [deep_get] cannot take: a segment below a value that is not
    a dict. *)
Lemma deep_get_loop_below_scalar (dct v : value) (key : string)
    (path : list string) (default : option value) (r : bool) :
  is_dict v = false ->
  deep_get_loop dct v (key :: path) default r = Raise AttributeError.
Proof. destruct v; simpl; congruence. Qed.

(** C8 (defect in the code).  The caller leaves [secret_management] out, so
    the host sets it to [None]; [deep_get] is called with the default
    "NOT_FOUND" as [reset_account_if_needed] calls it, and raises an
    AttributeError instead of returning the default: the [except KeyError]
    clause does not cover a segment looked up below [None]. *)
Theorem deep_get_raises_despite_default :
  Dict.get "secret_management" (module_params args_create) = Some VNone /\
  deep_get (VDict (module_params args_create))
    "secret_management.management_action" (Some (VStr "NOT_FOUND")) false
  = Raise AttributeError.
Proof. split; reflexivity. Qed.

(** The other way a supplied default is not returned: an empty sub-object
    sends the next segment back to the root container. *)
Lemma deep_get_empty_dict_restarts :
  deep_get (VDict [("secret_management", VDict []); ("new_secret", VStr "s")])
    "secret_management.new_secret" (Some (VStr "NOT_FOUND")) false
  = Ret (VStr "s").
Proof. reflexivity. Qed.

(** ** Patch builder *)

(** A top-level field the record lacks is added unless it is the
    sentinel. *)
Lemma decide_operation_absent (p : string) (v : value) :
  decide_operation false p VNone v
  = if py_eq v removal_value then [] else [op_add p v].
Proof. unfold decide_operation. simpl. now destruct (py_eq v removal_value). Qed.

(** The same for a child, whose [None] value is skipped as well. *)
Lemma decide_operation_absent_child (p : string) (v : value) :
  decide_operation true p VNone v
  = if (is_none v || py_eq v removal_value)%bool then [] else [op_add p v].
Proof.
  unfold decide_operation. simpl.
  now destruct (is_none v), (py_eq v removal_value).
Qed.

(** No operation ever adds the sentinel. *)
Lemma decide_operation_never_adds_sentinel (child : bool) (p : string)
    (ev v : value) (o : operation) :
  In o (decide_operation child p ev v) -> op o = Add ->
  py_eq v removal_value = false.
Proof.
  unfold decide_operation.
  destruct (negb (is_none ev)).
  - destruct (py_eq v removal_value) eqn:E.
    + intros [<-|[]]; discriminate.
    + reflexivity.
  - destruct (py_eq v removal_value) eqn:E; [|reflexivity].
    rewrite andb_false_r. intros [].
Qed.

(** The first child that is not a control field needs the keys of the
    existing sub-object: without one the loop raises. *)
Lemma child_operations_without_parent (parameter_name cyberark_property_name
    child_parm_name : string) (existing v : value) (rest : dict) :
  is_dict existing = false ->
  str_in (parameter_name ++ "." ++ child_parm_name)
    ansible_specific_parameters = false ->
  child_operations parameter_name cyberark_property_name existing
    ((child_parm_name, v) :: rest) = Raise AttributeError.
Proof.
  intros Hd Hs. cbn [child_operations]. cbv zeta. rewrite Hs.
  destruct existing; simpl in *; congruence.
Qed.

(** C1 (defect in the code).  [name] is on the list of non-removable
    properties, the caller sets it to the sentinel, and the builder emits
    [remove /name]: the list is never consulted. *)
Theorem update_account_removes_name :
  str_in "name" cyberark_nonremovable_properties = true /\
  update_operations (module_params (("name", VStr "NO_VALUE") :: args_create))
    record_example
  = Ret [op_remove "/name"].
Proof. split; reflexivity. Qed.

(** C2 (defect in the code).  The caller supplies
    [platform_account_properties] with one child and the record has no
    [platformAccountProperties]: no [add] is emitted, the builder raises an
    AttributeError and nothing is sent. *)
Theorem update_account_absent_parent_raises (open_url : request -> reply) :
  getitem record_example "platformAccountProperties" = Raise KeyError /\
  update_account open_url
    (module_params
       (("platform_account_properties", VDict [("Port", VStr "22")])
          :: args_create))
    record_example
  = ([], Raise AttributeError).
Proof. split; reflexivity. Qed.

(** ** Rotation rules *)

(** Whenever the two lookups return and the record has an [id], the
    if/elif chain picks the first rule of the priority list that applies. *)
Lemma rotation_choice_first_match (params : dict)
    (existing management_action cpm_new_secret id : value) :
  deep_get (VDict params) "secret_management.management_action"
    (Some (VStr "NOT_FOUND")) false = Ret management_action ->
  deep_get (VDict params) "secret_management.new_secret"
    (Some (VStr "NOT_FOUND")) false = Ret cpm_new_secret ->
  getitem existing "id" = Ret id ->
  rotation_choice params existing
  = Ret (option_map (rule_request id)
           (first_match (rotation_rules management_action cpm_new_secret
                           (Dict.get "new_secret" params)))).
Proof.
  intros Hma Hcpm Hid. unfold rotation_choice. rewrite Hma, Hcpm.
  unfold rotation_rules, explicit_secret, rbind.
  destruct (py_eq management_action (VStr "change")),
    (py_eq management_action (VStr "change_immediately")),
    (py_eq management_action (VStr "reconcile")),
    (is_none cpm_new_secret), (py_eq cpm_new_secret (VStr "NOT_FOUND"));
    cbn [andb orb negb first_match option_map rule_request];
    rewrite ?Hid; try reflexivity;
    (destruct (Dict.get "new_secret" params) as [ns|]; [|reflexivity];
     destruct (is_none ns); cbn [negb first_match option_map rule_request];
     rewrite ?Hid; reflexivity).
Qed.

(** X20.  With a session to talk to, a record that has an [id] and both
    lookups returning, the function sends exactly the call of the first
    matching rule, and nothing when no rule applies. *)
Lemma reset_account_first_match (open_url : request -> reply) (params : dict)
    (existing management_action cpm_new_secret id session vc token : value)
    (b : string) :
  deep_get (VDict params) "secret_management.management_action"
    (Some (VStr "NOT_FOUND")) false = Ret management_action ->
  deep_get (VDict params) "secret_management.new_secret"
    (Some (VStr "NOT_FOUND")) false = Ret cpm_new_secret ->
  getitem existing "id" = Ret id ->
  getparam params "cyberark_session" = Ret session ->
  getitem session "api_base_url" = Ret (VStr b) ->
  getitem session "validate_certs" = Ret vc ->
  getitem session "token" = Ret token ->
  reset_account_if_needed open_url params existing
  = match first_match (rotation_rules management_action cpm_new_secret
                         (Dict.get "new_secret" params)) with
    | None => ([], Ret (false, VDict [], -1))
    | Some rule =>
        let req := mkReq "POST" (b ++ fst (rule_request id rule)) token
                     (Some (VDict (snd (rule_request id rule)))) vc in
        ([req], reset_reply (fst (rule_request id rule)) (open_url req))
    end.
Proof.
  intros Hma Hcpm Hid Hs Hb Hv Ht. unfold reset_account_if_needed.
  rewrite Hs, (rotation_choice_first_match _ _ _ _ _ Hma Hcpm Hid).
  cbn [lift io_bind]. rewrite Hb. cbn [io_bind]. rewrite Hv. cbn [io_bind].
  destruct (first_match _) as [rule|]; cbn [option_map io_bind app].
  - destruct (rule_request id rule) as [ep payload]. cbn [fst snd].
    rewrite Ht. cbn [io_bind request_url send app]. reflexivity.
  - reflexivity.
Qed.

(** C3 (defect in the code).  The caller gives a bare [new_secret] and no
    [secret_management]: the fifth rule should send Password/Update, but
    the first lookup raises an AttributeError before any rule is looked at
    and no call is made. *)
Theorem reset_account_raises_without_secret_management
    (open_url : request -> reply) :
  Dict.get "new_secret"
    (module_params (("new_secret", VStr "s3cret") :: args_create))
  = Some (VStr "s3cret") /\
  reset_account_if_needed open_url
    (module_params (("new_secret", VStr "s3cret") :: args_create))
    record_example
  = ([], Raise AttributeError).
Proof. split; reflexivity. Qed.

(** C4, counterexample.  A [secret_management] sub-object with the
    directive [change] is supplied, and the fifth rule fires all the same. *)
Lemma fifth_rule_fires_with_change :
  deep_get (VDict (module_params args_change_bare_secret))
    "secret_management.management_action" (Some (VStr "NOT_FOUND")) false
  = Ret (VStr "change") /\
  rotation_choice (module_params args_change_bare_secret) record_example
  = Ret (Some ("/PasswordVault/API/Accounts/12_3/Password/Update",
               [("ChangeEntireGroup", VBool true);
                ("NewCredentials", VStr "s3cret")])).
Proof. split; reflexivity. Qed.

(** C4, as amended.  The call with the whole-group flag set is chosen only
    when rules one to four do not apply: the directive is neither
    [change_immediately] nor [reconcile], and if it is [change] then the
    lookup of [secret_management.new_secret] gave [None] or the text
    [NOT_FOUND] (the sub-option is null or left out, or it is that very
    text, which the code cannot tell from a missing one); the bare
    [new_secret] is not null and is what is sent. *)
Theorem fifth_rule_only_after_the_others (params : dict) (existing : value)
    (end_point : string) (payload : dict) :
  rotation_choice params existing = Ret (Some (end_point, payload)) ->
  Dict.get "ChangeEntireGroup" payload = Some (VBool true) ->
  exists management_action cpm_new_secret new_secret,
    deep_get (VDict params) "secret_management.management_action"
      (Some (VStr "NOT_FOUND")) false = Ret management_action /\
    deep_get (VDict params) "secret_management.new_secret"
      (Some (VStr "NOT_FOUND")) false = Ret cpm_new_secret /\
    Dict.get "new_secret" params = Some new_secret /\
    new_secret <> VNone /\
    payload = [("ChangeEntireGroup", VBool true);
               ("NewCredentials", new_secret)] /\
    management_action <> VStr "change_immediately" /\
    management_action <> VStr "reconcile" /\
    (management_action = VStr "change" ->
     cpm_new_secret = VNone \/ cpm_new_secret = VStr "NOT_FOUND").
Proof.
  unfold rotation_choice.
  destruct (deep_get (VDict params) "secret_management.management_action" _ _)
    as [ma| |]; cbn [rbind]; try discriminate.
  destruct (deep_get (VDict params) "secret_management.new_secret" _ _)
    as [cpm| |]; cbn [rbind]; try discriminate.
  destruct (py_eq ma (VStr "change")) eqn:Hc,
    (py_eq ma (VStr "change_immediately")) eqn:Hci,
    (py_eq ma (VStr "reconcile")) eqn:Hr,
    (is_none cpm) eqn:Hn, (py_eq cpm (VStr "NOT_FOUND")) eqn:Hnf;
    cbn [andb orb negb];
    try (destruct (getitem existing "id"); cbn [rbind]; intros H G;
         inversion H; subst; cbn in G; discriminate);
    (destruct (Dict.get "new_secret" params) as [ns|] eqn:Hns;
       [|discriminate];
     destruct (is_none ns) eqn:Hnn; cbn [negb]; [discriminate|];
     destruct (getitem existing "id"); cbn [rbind]; intros H G;
     inversion H; subst;
     exists ma, cpm, ns; repeat split; try reflexivity;
     try (apply is_none_false; assumption);
     try (apply py_eq_str_false; assumption);
     try (intros E; apply py_eq_str in E; congruence);
     try (intros _;
          first [left; apply is_none_true; assumption
                |right; apply py_eq_str; assumption])).
Qed.

Lemma fifth_rule_only_after_the_others_witness :
  exists management_action cpm_new_secret new_secret,
    deep_get (VDict (module_params args_change_bare_secret))
      "secret_management.management_action"
      (Some (VStr "NOT_FOUND")) false = Ret management_action /\
    deep_get (VDict (module_params args_change_bare_secret))
      "secret_management.new_secret"
      (Some (VStr "NOT_FOUND")) false = Ret cpm_new_secret /\
    Dict.get "new_secret" (module_params args_change_bare_secret)
    = Some new_secret /\
    new_secret <> VNone /\
    [("ChangeEntireGroup", VBool true); ("NewCredentials", VStr "s3cret")]
    = [("ChangeEntireGroup", VBool true); ("NewCredentials", new_secret)] /\
    management_action <> VStr "change_immediately" /\
    management_action <> VStr "reconcile" /\
    (management_action = VStr "change" ->
     cpm_new_secret = VNone \/ cpm_new_secret = VStr "NOT_FOUND").
Proof.
  apply (fifth_rule_only_after_the_others
           (module_params args_change_bare_secret) record_example
           "/PasswordVault/API/Accounts/12_3/Password/Update"
           [("ChangeEntireGroup", VBool true);
            ("NewCredentials", VStr "s3cret")]);
    reflexivity.
Defined.

(** ** Dispatcher *)

Lemma io_bind_fst {A B : Type} (m : io A) (k : A -> io B) :
  fst (io_bind m k)
  = (fst m ++ match snd m with Ret a => fst (k a) | _ => [] end)%list.
Proof.
  destruct m as [l [a|e|f]]; simpl.
  - now destruct (k a).
  - now rewrite app_nil_r.
  - now rewrite app_nil_r.
Qed.

(** What [get_account_prepare] has read from the session when it returns. *)
Lemma prepare_session (params : dict) (p : prepared) :
  get_account_prepare params = Ret p ->
  exists session,
    getparam params "cyberark_session" = Ret session /\
    getitem session "api_base_url" = Ret (p_api_base_url p) /\
    getitem session "validate_certs" = Ret (p_validate_certs p) /\
    getitem session "token" = Ret (p_token p) /\
    exists safe, getparam params "safe" = Ret safe.
Proof.
  unfold get_account_prepare.
  destruct (getparam params "identified_by"); cbn [rbind]; try discriminate.
  destruct (split_value a ","); cbn [rbind]; try discriminate.
  match goal with |- rbind ?x _ = _ -> _ => destruct x end;
    cbn [rbind]; try discriminate.
  destruct (search_string_loop params a0 None); cbn [rbind]; try discriminate.
  destruct (getparam params "safe") as [safe| |] eqn:Hsafe; cbn [rbind];
    try discriminate.
  destruct (getparam params "cyberark_session") as [session| |] eqn:Hs;
    cbn [rbind]; try discriminate.
  destruct (getitem session "api_base_url") as [b| |] eqn:Hb; cbn [rbind];
    try discriminate.
  destruct (getitem session "validate_certs") as [vc| |] eqn:Hv; cbn [rbind];
    try discriminate.
  destruct (getparam params "state"); cbn [rbind]; try discriminate.
  destruct (getitem session "token") as [tok| |] eqn:Ht; cbn [rbind];
    try discriminate.
  intros H. inversion H; subst.
  cbn [p_api_base_url p_validate_certs p_token]. exists session.
  do 4 (split; [first [assumption|reflexivity]|]). now exists safe.
Qed.

(** A lookup that returns has sent its one GET. *)
Lemma get_account_log (open_url : request -> reply) (params : dict)
    (l : list request) (x : bool * value * Z) :
  get_account open_url params = (l, Ret x) ->
  exists p b,
    get_account_prepare params = Ret p /\ p_api_base_url p = VStr b /\
    l = [mkReq "GET" (b ++ p_end_point p) (p_token p) None
           (p_validate_certs p)].
Proof.
  unfold get_account.
  destruct (get_account_prepare params) as [p| |]; cbn [lift io_bind];
    try discriminate.
  destruct (p_api_base_url p) eqn:Hb; cbn [request_url lift app];
    try discriminate.
  cbn [send io_bind].
  destruct (open_url _) as [code body|code body| | |code|code].
  - cbn [lift]. destruct (except_exception _ _ _); intros H; inversion H.
    exists p, s. now rewrite Hb.
  - destruct (Z.eqb code 404); cbn; intros H; inversion H.
    exists p, s. now rewrite Hb.
  - cbn. discriminate.
  - cbn. discriminate.
  - cbn. discriminate.
  - cbn. discriminate.
Qed.

(** [add_account] sends its POST as soon as the payload is built. *)
Lemma add_account_log (open_url : request -> reply) (params payload : dict)
    (session vc token safe : value) (b : string) :
  getparam params "cyberark_session" = Ret session ->
  getitem session "api_base_url" = Ret (VStr b) ->
  getitem session "validate_certs" = Ret vc ->
  getitem session "token" = Ret token ->
  getparam params "safe" = Ret safe ->
  add_payload params params [("safeName", safe)] = Ret payload ->
  fst (add_account open_url params)
  = [mkReq "POST" (b ++ "/PasswordVault/api/Accounts") token
       (Some (VDict payload)) vc].
Proof.
  intros Hs Hb Hv Ht Hsafe Hp. unfold add_account.
  rewrite Hs. cbn [lift io_bind]. rewrite Hb. cbn [io_bind].
  rewrite Hv. cbn [io_bind]. rewrite Ht. cbn [io_bind].
  rewrite Hsafe. cbn [io_bind]. rewrite Hp. cbn [io_bind request_url send app].
  destruct (open_url _) as [code [body|]|code body| | |code|code]; reflexivity.
Qed.

(** State [present] and nothing found: the run goes on with [add_account]. *)
Lemma main_creates_when_not_found (open_url : request -> reply) (args : dict)
    (l : list request) (code : Z) :
  getparam (module_params args) "state" = Ret (VStr "present") ->
  get_account open_url (module_params args) = (l, Ret (false, VNone, code)) ->
  exists rest,
    fst (main open_url args)
    = (l ++ fst (add_account open_url (module_params args)) ++ rest)%list.
Proof.
  intros Hst Hg. unfold main. cbv zeta. rewrite Hst. cbn [lift io_bind].
  rewrite Hg. cbn [py_eq String.eqb Ascii.eqb Bool.eqb]. cbn [io_bind app].
  destruct (add_account open_url (module_params args))
    as [la [[[c res] sc]|e|f]]; cbn [io_bind fst].
  - destruct (reset_account_if_needed open_url (module_params args) res)
      as [lr [[[c' res'] sc']|e|f]]; cbn [io_bind io_ret fst];
      rewrite ?app_nil_r; now exists lr.
  - exists []. now rewrite !app_nil_r.
  - exists []. now rewrite !app_nil_r.
Qed.

(** The loop of [add_account] returns as soon as each of its lookups does. *)
Lemma add_payload_returns (params : dict) (items : dict) :
  (forall name v, In (name, v) items ->
     forall r, exists w, deep_get (VDict params) name None r = Ret w) ->
  forall payload, exists payload', add_payload params items payload = Ret payload'.
Proof.
  induction items as [|[name v] items IH]; intros H payload;
    cbn [add_payload].
  - now exists payload.
  - assert (Hrest : forall name v, In (name, v) items ->
                    forall r, exists w, deep_get (VDict params) name None r = Ret w)
      by (intros n w Hin; apply (H n w); now right).
    destruct (negb (str_in name ansible_specific_parameters) && negb (is_none v))%bool.
    + destruct (Dict.get name cyberark_reference_fieldnames).
      * destruct (H name v (or_introl eq_refl) true) as [w ->]. cbn [rbind].
        apply IH, Hrest.
      * destruct (H name v (or_introl eq_refl) false) as [w ->]. cbn [rbind].
        apply IH, Hrest.
    + apply IH, Hrest.
Qed.

(** Every declared field can be looked up in [module.params]. *)
Lemma module_params_lookup (args : dict) (name : string) (v : value) (r : bool) :
  In (name, v) (module_params args) ->
  exists w, deep_get (VDict (module_params args)) name None r = Ret w.
Proof.
  unfold module_params, fields. cbn [map f_name].
  intros H. cbn [In] in H.
  repeat (destruct H as [H|H];
          [inversion H; subst; destruct r; eexists; reflexivity|]).
  destruct H.
Qed.

(** In the create scenario the run does not reach [exit_json]: after the
    create, [reset_account_if_needed] looks below the unset
    [secret_management]. *)
Lemma create_scenario_ends_in_AttributeError :
  snd (main (vault_with []) args_create) = Raise AttributeError.
Proof. reflexivity. Qed.

(** C9, counterexample.  In the scenario the create call carries a fifth
    field, [secretType], from the default of [secret_type]: its payload is
    not the four-field payload of the scenario. *)
Lemma create_payload_has_secret_type :
  exists r d,
    nth_error (fst (main (vault_with []) args_create)) 1 = Some r /\
    req_method r = "POST" /\
    req_data r = Some d /\
    getitem d "secretType" = Ret (VStr "password") /\
    py_eq d claimed_create_payload = false.
Proof.
  eexists. eexists. repeat split; reflexivity.
Qed.

(** C9, as amended.  With the scenario's arguments and a lookup that finds
    nothing, the second call of the run is the create, with the payload
    safeName, platformId, address, secretType "password", userName. *)
Theorem create_scenario_payload (open_url : request -> reply) (code : Z) :
  snd (get_account open_url (module_params args_create))
  = Ret (false, VNone, code) ->
  nth_error (fst (main open_url args_create)) 1 = Some create_request_example.
Proof.
  intros H.
  destruct (get_account open_url (module_params args_create)) as [l r] eqn:E.
  cbn [snd] in H. subst r.
  destruct (get_account_log _ _ _ _ E) as (p & b & _ & _ & ->).
  destruct (main_creates_when_not_found open_url args_create _ code eq_refl E)
    as [rest ->].
  rewrite (add_account_log open_url (module_params args_create)
             [("safeName", VStr "S1"); ("platformId", VStr "P1");
              ("address", VStr "10.0.0.1"); ("secretType", VStr "password");
              ("userName", VStr "admin")]
             session_example (VBool true) (VStr "TOKEN") (VStr "S1")
             "https://vault.example"); reflexivity.
Qed.

Lemma create_scenario_payload_witness :
  nth_error (fst (main (vault_with []) args_create)) 1
  = Some create_request_example.
Proof.
  apply (create_scenario_payload (vault_with []) 200). reflexivity.
Defined.

(** C6.  When the search answers 404, [get_account] returns not-found with
    status code 404 instead of failing, and with state [present] the next
    call of the run is the create POST. *)
Theorem lookup_404_then_create (open_url : request -> reply) (args : dict)
    (p : prepared) (b : string) (body : option value) :
  getparam (module_params args) "state" = Ret (VStr "present") ->
  get_account_prepare (module_params args) = Ret p ->
  p_api_base_url p = VStr b ->
  open_url (mkReq "GET" (b ++ p_end_point p) (p_token p) None
              (p_validate_certs p)) = HTTPError 404 body ->
  get_account open_url (module_params args)
  = ([mkReq "GET" (b ++ p_end_point p) (p_token p) None (p_validate_certs p)],
     Ret (false, VNone, 404)) /\
  exists payload,
    nth_error (fst (main open_url args)) 1
    = Some (mkReq "POST" (b ++ "/PasswordVault/api/Accounts") (p_token p)
              (Some (VDict payload)) (p_validate_certs p)).
Proof.
  intros Hst Hp Hb Hrep.
  assert (Hg : get_account open_url (module_params args)
               = ([mkReq "GET" (b ++ p_end_point p) (p_token p) None
                     (p_validate_certs p)], Ret (false, VNone, 404))).
  { unfold get_account. rewrite Hp. cbn [lift io_bind]. rewrite Hb.
    cbn [request_url send io_bind app]. rewrite Hrep. reflexivity. }
  split; [exact Hg|].
  destruct (prepare_session _ _ Hp) as (session & Hs & Hu & Hv & Ht & safe & Hsafe).
  destruct (add_payload_returns (module_params args) (module_params args)
              (fun name v Hin r => module_params_lookup args name v r Hin)
              [("safeName", safe)]) as [payload Hpay].
  exists payload.
  destruct (main_creates_when_not_found open_url args _ 404 Hst Hg) as [rest ->].
  rewrite Hb in Hu.
  rewrite (add_account_log open_url _ payload session _ _ safe b Hs Hu Hv Ht
             Hsafe Hpay).
  reflexivity.
Qed.

Lemma lookup_404_then_create_witness :
  get_account vault_404 (module_params args_create)
  = ([mkReq "GET"
        ("https://vault.example" ++
         "/PasswordVault/api/accounts?filter=safeName%20eq%20S1&search=admin%2010.0.0.1%20P1")
        (VStr "TOKEN") None (VBool true)],
     Ret (false, VNone, 404)) /\
  exists payload,
    nth_error (fst (main vault_404 args_create)) 1
    = Some (mkReq "POST" ("https://vault.example" ++ "/PasswordVault/api/Accounts")
              (VStr "TOKEN") (Some (VDict payload)) (VBool true)).
Proof.
  apply (lookup_404_then_create vault_404 args_create
           (mkPrepared ["username"; "address"; "platform_id"]
              "/PasswordVault/api/accounts?filter=safeName%20eq%20S1&search=admin%2010.0.0.1%20P1"
              (VStr "https://vault.example") (VBool true) (VStr "TOKEN"))
           "https://vault.example" None); reflexivity.
Defined.

(** ** Lookup: the search string *)

Lemma append_assoc (a b c : string) : (a ++ b) ++ c = a ++ b ++ c.
Proof. induction a as [|x a IH]; simpl; [reflexivity|now rewrite IH]. Qed.

Lemma split_on_absent (c : ascii) (s : string) :
  str_mem c s = false -> split_on c s = [s].
Proof.
  induction s as [|a s IH]; simpl; [reflexivity|].
  rewrite (Ascii.eqb_sym a c). intros H. apply orb_false_iff in H as [-> H].
  now rewrite (IH H).
Qed.

Lemma split_on_nonempty (c : ascii) (s : string) : split_on c s <> [].
Proof.
  destruct s as [|a s]; simpl; [discriminate|].
  destruct (Ascii.eqb a c); [discriminate|].
  destruct (split_on c s); discriminate.
Qed.

(** A one-segment lookup in a dict is the plain lookup with the default. *)
Lemma deep_get_undotted (d : dict) (field : string) (dv : value) :
  str_mem "." field = false ->
  deep_get (VDict d) field (Some dv) false
  = Ret (match Dict.get field d with Some v => v | None => dv end).
Proof.
  intros H. unfold deep_get. rewrite (split_on_absent _ _ H).
  cbn [deep_get_loop List.length Nat.eqb].
  now destruct (Dict.get field d).
Qed.

Lemma search_fields_cons (f : string) (fs : list string) :
  search_fields (f :: fs)
  = if negb (str_in f ansible_specific_parameters)
    then f :: search_fields fs else search_fields fs.
Proof. reflexivity. Qed.

(** The loop appends one token per searched field to what it has so far. *)
Lemma search_string_loop_tokens (params : dict) (fs : list string) :
  forall (vs : list value) (acc : option string),
    Forall2 (fun f v =>
               deep_get (VDict params) f (Some (VStr "NOT FOUND")) false = Ret v)
      (search_fields fs) vs ->
    search_string_loop params fs acc
    = Ret (match vs with
           | [] => acc
           | _ => Some ((match acc with Some s => s ++ " " | None => "" end)
                          ++ join " " (map py_str vs))
           end).
Proof.
  induction fs as [|f fs IH]; intros vs acc H.
  - inversion H. reflexivity.
  - rewrite search_fields_cons in H. cbn [search_string_loop].
    destruct (negb (str_in f ansible_specific_parameters)).
    + inversion H as [|f' v fs' vs' Hv Hrest]; subst.
      rewrite Hv. cbn [rbind]. rewrite (IH vs' _ Hrest).
      destruct vs' as [|v2 vs']; [reflexivity|].
      cbn [map join]. f_equal. f_equal.
      now rewrite !append_assoc.
    + now apply IH.
Qed.

(** For undotted identity fields the search string is made of their
    tokens, whatever their values. *)
Lemma search_string_of_tokens (params : dict) (fs : list string) :
  forallb (fun f => negb (str_mem "." f)) (search_fields fs) = true ->
  search_string_loop params fs None
  = Ret (match search_fields fs with
         | [] => None
         | l => Some (join " " (map (field_token params) l))
         end).
Proof.
  intros H.
  set (v_of := fun f => match Dict.get f params with
                        | Some v => v
                        | None => VStr "NOT FOUND"
                        end).
  rewrite (search_string_loop_tokens params fs
             (map v_of (search_fields fs)) None).
  - rewrite map_map.
    replace (map (fun f => py_str (v_of f)) (search_fields fs))
      with (map (field_token params) (search_fields fs)).
    + now destruct (search_fields fs).
    + apply map_ext. intros f. unfold field_token, v_of.
      now destruct (Dict.get f params).
  - induction (search_fields fs) as [|f l IH]; constructor.
    + apply deep_get_undotted. cbn [forallb] in H.
      apply andb_true_iff in H as [H _]. now apply negb_true_iff.
    + apply IH. cbn [forallb] in H. now apply andb_true_iff in H as [_ H].
Qed.

(** What [lstrip] takes away is whitespace, and what it leaves does not
    start with any. *)
Lemma lstrip_spec (s : string) :
  exists ws, s = ws ++ lstrip s /\ all_space ws = true
             /\ starts_with_space (lstrip s) = false.
Proof.
  induction s as [|a s (ws & Hs & Hw & Hl)].
  - exists "". repeat split.
  - cbn [lstrip]. destruct (is_space a) eqn:E.
    + exists (String a ws). cbn [append all_space]. rewrite E, Hw.
      repeat split; [now f_equal|exact Hl].
    + exists "". repeat split. exact E.
Qed.

Lemma append_empty_r (a : string) : a ++ "" = a.
Proof. induction a as [|x a IH]; simpl; [reflexivity|now rewrite IH]. Qed.

(** Once the part before the [try] has run, [get_account] sends its one
    GET, whatever the vault answers. *)
Lemma get_account_request (open_url : request -> reply) (params : dict)
    (p : prepared) (b : string) :
  get_account_prepare params = Ret p ->
  p_api_base_url p = VStr b ->
  fst (get_account open_url params)
  = [mkReq "GET" (b ++ p_end_point p) (p_token p) None (p_validate_certs p)].
Proof.
  intros Hp Hb. unfold get_account. rewrite Hp. cbn [lift io_bind].
  rewrite Hb. cbn [request_url send io_bind app].
  destruct (open_url _) as [code body|code body| | |code|code]; cbn [lift].
  - now destruct (except_exception _ _ _).
  - now destruct (Z.eqb code 404).
  - reflexivity.
  - reflexivity.
  - reflexivity.
  - reflexivity.
Qed.

(** C10 (defect in the code).  The caller identifies the account by its
    user name, its address and a platform property, and supplies no
    [platform_account_properties].  The third identity field is no control
    parameter and is absent from the parameter set, so it should
    contribute the default text to the search string; the lookup of line
    461 raises an AttributeError instead, although it is given that
    default, and [get_account] ends before anything is sent. *)
Theorem get_account_dotted_identity_raises (open_url : request -> reply) :
  Dict.get "identified_by" (module_params args_property_identity)
  = Some (VStr "username,address,platform_account_properties.LogonDomain")
  /\ str_in "platform_account_properties.LogonDomain"
       ansible_specific_parameters = false
  /\ Dict.get "platform_account_properties"
       (module_params args_property_identity) = Some VNone
  /\ deep_get (VDict (module_params args_property_identity))
       "platform_account_properties.LogonDomain" (Some (VStr "NOT FOUND")) false
     = Raise AttributeError
  /\ get_account open_url (module_params args_property_identity)
     = ([], Raise AttributeError).
Proof. repeat split; reflexivity. Qed.

(** X23.  The search request.  When the identity fields that reach the
    search string are undotted and [safe] is a string, [get_account] sends
    one GET, whatever the vault answers, to the accounts end point with the
    safe filter and, if any field reaches the search string, a search term:
    the tokens of those fields in list order (the text of the parameter,
    [None] for an unset one, [NOT FOUND] for a name that is no parameter)
    joined by single spaces, without its leading whitespace, and
    percent-quoted. *)
Theorem get_account_search_request (open_url : request -> reply)
    (params : dict) (ib safe b : string) (session vc token st : value) :
  Dict.get "identified_by" params = Some (VStr ib) ->
  forallb (fun f => negb (str_mem "." f)) (search_fields (split_on "," ib))
  = true ->
  Dict.get "safe" params = Some (VStr safe) ->
  Dict.get "cyberark_session" params = Some session ->
  getitem session "api_base_url" = Ret (VStr b) ->
  getitem session "validate_certs" = Ret vc ->
  getitem session "token" = Ret token ->
  Dict.get "state" params = Some st ->
  exists ws search,
    join " " (map (field_token params) (search_fields (split_on "," ib)))
    = ws ++ search
    /\ all_space ws = true
    /\ starts_with_space search = false
    /\ fst (get_account open_url params)
       = [mkReq "GET"
            (b ++ "/PasswordVault/api/accounts?filter="
               ++ quote "safeName eq " ++ quote safe
               ++ match search_fields (split_on "," ib) with
                  | [] => ""
                  | _ => "&search=" ++ quote search
                  end)
            token None vc].
Proof.
  intros Hib Hdot Hsafe Hs Hb Hv Ht Hst.
  destruct (lstrip_spec
              (join " " (map (field_token params)
                           (search_fields (split_on "," ib)))))
    as (ws & Hj & Hw & Hl).
  exists ws, (lstrip (join " " (map (field_token params)
                                 (search_fields (split_on "," ib))))).
  do 3 (split; [assumption|]).
  assert (Hp : get_account_prepare params
               = Ret (mkPrepared (split_on "," ib)
                        (accounts_end_point
                           match search_fields (split_on "," ib) with
                           | [] => None
                           | l => Some (join " " (map (field_token params) l))
                           end
                           (Some (quote "safeName eq " ++ quote safe)))
                        (VStr b) vc token)).
  { unfold get_account_prepare, getparam.
    rewrite Hib. cbn [rbind split_value]. rewrite Hsafe.
    cbn [is_none negb quote_value rbind].
    rewrite (search_string_of_tokens params _ Hdot). cbn [rbind].
    rewrite Hs. cbn [rbind]. rewrite Hb. cbn [rbind]. rewrite Hv. cbn [rbind].
    rewrite Hst. cbn [rbind]. rewrite Ht. reflexivity. }
  rewrite (get_account_request open_url params _ b Hp eq_refl).
  cbn [p_end_point p_token p_validate_certs]. do 2 f_equal.
  unfold accounts_end_point.
  destruct (search_fields (split_on "," ib)) as [|f l].
  - now rewrite append_empty_r.
  - now rewrite !append_assoc.
Qed.

Lemma get_account_search_request_witness :
  exists ws search,
    "admin None NOT FOUND" = ws ++ search
    /\ all_space ws = true
    /\ starts_with_space search = false
    /\ fst (get_account vault_404 (module_params args_unset_fields))
       = [mkReq "GET"
            ("https://vault.example" ++ "/PasswordVault/api/accounts?filter="
               ++ quote "safeName eq " ++ quote "S1"
               ++ "&search=" ++ quote search)
            (VStr "TOKEN") None (VBool true)].
Proof.
  apply (get_account_search_request vault_404 (module_params args_unset_fields)
           "username,address,nickname" "S1" "https://vault.example"
           session_example (VBool true) (VStr "TOKEN") (VStr "present"));
    reflexivity.
Defined.

(** ** Lookup: counting the matches *)





(** For an undotted identity field and a record that is a dict, the three
    lookups of the comparison return. *)
Lemma lookups_return_undotted (params record : dict) (field : string) :
  str_mem "." field = false ->
  lookups_return params (VDict record) field = true.
Proof.
  intros H. unfold lookups_return, deep_get. rewrite (split_on_absent _ _ H).
  cbn [deep_get_loop List.length Nat.eqb].
  destruct (Dict.get _ record), (Dict.get field record),
    (Dict.get _ params), (Dict.get field params); reflexivity.
Qed.









(** ** Idempotence of the patch builder *)

Lemma get_set_same {A : Type} (k : string) (v : A) (d : list (string * A)) :
  Dict.get k (Dict.set k v d) = Some v.
Proof.
  induction d as [|[k' v'] d IH]; simpl.
  - now rewrite String.eqb_refl.
  - destruct (String.eqb k k') eqn:E; simpl; rewrite E; [reflexivity|exact IH].
Qed.

Lemma get_set_other {A : Type} (k k' : string) (v : A) (d : list (string * A)) :
  k <> k' -> Dict.get k (Dict.set k' v d) = Dict.get k d.
Proof.
  intros Hne. induction d as [|[k2 v2] d IH]; simpl.
  - apply String.eqb_neq in Hne. now rewrite Hne.
  - destruct (String.eqb k' k2) eqn:E; simpl.
    + apply String.eqb_eq in E. subst k2.
      apply String.eqb_neq in Hne. now rewrite Hne.
    + now rewrite IH.
Qed.

Lemma get_remove_same {A : Type} (k : string) (d : list (string * A)) :
  Dict.get k (Dict.remove k d) = None.
Proof.
  induction d as [|[k' v'] d IH]; simpl; [reflexivity|].
  destruct (String.eqb k k') eqn:E; simpl; [exact IH|now rewrite E].
Qed.

Lemma get_remove_other {A : Type} (k k' : string) (d : list (string * A)) :
  k <> k' -> Dict.get k (Dict.remove k' d) = Dict.get k d.
Proof.
  intros Hne. induction d as [|[k2 v2] d IH]; simpl; [reflexivity|].
  destruct (String.eqb k' k2) eqn:E; simpl.
  - apply String.eqb_eq in E. subst k2.
    apply String.eqb_neq in Hne. now rewrite Hne.
  - now rewrite IH.
Qed.

Lemma str_in_In (x : string) (l : list string) :
  str_in x l = true <-> In x l.
Proof.
  unfold str_in. rewrite existsb_exists. split.
  - intros (y & Hy & E). apply String.eqb_eq in E. now subst.
  - intros H. exists x. split; [exact H|apply String.eqb_refl].
Qed.

Lemma distinct_cons (x : string) (l : list string) :
  distinct (x :: l) = true -> ~ In x l /\ distinct l = true.
Proof.
  simpl. intros H. apply andb_true_iff in H as [H1 H2]. split; [|exact H2].
  intros Hin. apply str_in_In in Hin. rewrite Hin in H1. discriminate.
Qed.

(** With distinct keys, an item of a dict is what its key looks up. *)
Lemma get_of_item (d : dict) (k : string) (v : value) :
  distinct (map fst d) = true -> In (k, v) d -> Dict.get k d = Some v.
Proof.
  induction d as [|[k' v'] d IH]; intros Hd Hin; [destruct Hin|].
  cbn [map fst] in Hd. apply distinct_cons in Hd as [Hn Hd]. simpl.
  destruct Hin as [E|Hin].
  - inversion E; subst. now rewrite String.eqb_refl.
  - destruct (String.eqb k k') eqn:E.
    + apply String.eqb_eq in E. subst k'. exfalso. apply Hn.
      change k with (fst (k, v)). now apply in_map.
    + now apply IH.
Qed.

Lemma wf_dict_items (d : dict) (k : string) (v : value) :
  wf_value (VDict d) = true -> In (k, v) d -> wf_value v = true.
Proof.
  cbn [wf_value]. intros H. apply andb_true_iff in H as [_ H].
  induction d as [|[k' v'] d IH]; intros Hin; [destruct Hin|].
  apply andb_true_iff in H as [Hv Hd]. destruct Hin as [E|Hin].
  - inversion E. now subst.
  - now apply IH.
Qed.

(** [==] is reflexive on the values Python can build. *)
Lemma py_eq_refl (v : value) : wf_value v = true -> py_eq v v = true.
Proof.
  induction v as [|b|n|s|l IH|d IH] using value_induction; intros Hwf.
  - reflexivity.
  - apply Bool.eqb_reflx.
  - apply Z.eqb_refl.
  - apply String.eqb_refl.
  - cbn [wf_value] in Hwf. cbn [py_eq].
    induction l as [|x l IHl]; [reflexivity|].
    cbn [forallb] in Hwf. apply andb_true_iff in Hwf as [Hx Hl].
    inversion IH as [|x' l' Px Pl]; subst.
    rewrite (Px Hx). cbn [andb]. now apply IHl.
  - cbn [py_eq]. rewrite Nat.eqb_refl. cbn [andb].
    assert (Hitems : forall k x, In (k, x) d -> Dict.get k d = Some x).
    { intros k x. apply get_of_item. cbn [wf_value] in Hwf.
      now apply andb_true_iff in Hwf as [Hd _]. }
    assert (Hwfs : forall k x, In (k, x) d -> wf_value x = true)
      by (intros k x; now apply wf_dict_items).
    clear Hwf. revert IH Hitems Hwfs. generalize d at 1 2 4 6 as items.
    induction items as [|[k x] items IHi]; intros IH Hitems Hwfs;
      [reflexivity|].
    rewrite (Hitems k x (or_introl eq_refl)).
    inversion IH as [|kv l' Px Pl]; subst. cbn [snd] in Px.
    rewrite (Px (Hwfs k x (or_introl eq_refl))). cbn [andb].
    apply IHi; [exact Pl| |]; intros k' x' Hin.
    + apply Hitems. now right.
    + apply (Hwfs k'). now right.
Qed.

Lemma split_on_app (c : ascii) (a rest : string) :
  str_mem c a = false ->
  split_on c (a ++ String c rest) = a :: split_on c rest.
Proof.
  induction a as [|x a IH]; simpl.
  - intros _. now rewrite Ascii.eqb_refl.
  - rewrite (Ascii.eqb_sym x c). intros H.
    apply orb_false_iff in H as [-> H]. now rewrite (IH H).
Qed.

Lemma pointer_segments_member (name : string) :
  plain_name name = true -> pointer_segments ("/" ++ name) = [name].
Proof.
  unfold plain_name, pointer_segments. intros H.
  apply negb_true_iff in H. cbn [append split_on Ascii.eqb Bool.eqb].
  now rewrite (split_on_absent _ _ H).
Qed.

Lemma pointer_segments_child (parent name : string) :
  plain_name parent = true -> plain_name name = true ->
  pointer_segments ("/" ++ parent ++ "/" ++ name) = [parent; name].
Proof.
  unfold plain_name, pointer_segments. intros Hp Hn.
  apply negb_true_iff in Hp, Hn. cbn [append split_on Ascii.eqb Bool.eqb].
  change (parent ++ String "/" name) with (parent ++ String "/"%char name).
  now rewrite (split_on_app _ _ _ Hp), (split_on_absent _ _ Hn).
Qed.

Lemma decide_operation_path (child : bool) (p : string) (ev v : value)
    (o : operation) :
  In o (decide_operation child p ev v) -> path o = p.
Proof.
  unfold decide_operation.
  destruct (negb (is_none ev)).
  - destruct (py_eq v removal_value); [intros [<-|[]]; reflexivity|].
    destruct (negb (py_eq ev v)); [intros [<-|[]]; reflexivity|intros []].
  - destruct ((negb child || negb (is_none v))
              && negb (py_eq v removal_value))%bool;
      [intros [<-|[]]; reflexivity|intros []].
Qed.

Lemma slot_set_same (k : string) (v : value) (d : dict) :
  slot k (Dict.set k v d) = v.
Proof. unfold slot, referenced_value. now rewrite get_set_same. Qed.

Lemma slot_remove_same (k : string) (d : dict) :
  slot k (Dict.remove k d) = VNone.
Proof. unfold slot, referenced_value. now rewrite get_remove_same. Qed.

Lemma apply_member_other (o : operation) (k k' : string) (d : dict) :
  k' <> k -> Dict.get k' (apply_member o k d) = Dict.get k' d.
Proof.
  intros H. unfold apply_member.
  destruct (op o), (op_value o);
    first [reflexivity | now apply get_set_other | now apply get_remove_other].
Qed.

Lemma apply_members_other (k k' : string) (ops : list operation) :
  k' <> k ->
  forall d, Dict.get k' (apply_members k ops d) = Dict.get k' d.
Proof.
  intros H. unfold apply_members.
  induction ops as [|o ops IH]; intros d; [reflexivity|].
  cbn [fold_left]. now rewrite IH, apply_member_other.
Qed.

(** Once its own operation is applied to the member it names, the if/elif
    has nothing more to ask for. *)
Lemma decide_settles (child : bool) (p k : string) (d : dict) (v : value) :
  py_eq v v = true ->
  (child = false -> is_none v = false) ->
  decide_operation child p
    (slot k (apply_members k (decide_operation child p (slot k d) v) d)) v
  = [].
Proof.
  intros Hr Hc. unfold decide_operation at 2.
  destruct (is_none (slot k d)) eqn:Hn; cbn [negb].
  - destruct (py_eq v removal_value) eqn:Hrem.
    + rewrite andb_false_r. cbn [apply_members fold_left].
      unfold decide_operation. rewrite Hn, Hrem. cbn [negb].
      now rewrite andb_false_r.
    + rewrite andb_true_r.
      destruct (negb child || negb (is_none v))%bool eqn:Hcv.
      * cbn [apply_members fold_left apply_member op_add op op_value].
        rewrite slot_set_same. unfold decide_operation.
        assert (Hv : is_none v = false).
        { destruct child; [now apply negb_true_iff in Hcv|now apply Hc]. }
        now rewrite Hv, Hrem, Hr.
      * cbn [apply_members fold_left]. unfold decide_operation.
        now rewrite Hn, Hrem, Hcv.
  - destruct (py_eq v removal_value) eqn:Hrem.
    + cbn [apply_members fold_left apply_member op_remove op op_value].
      rewrite slot_remove_same. unfold decide_operation. cbn [is_none negb].
      rewrite Hrem. now rewrite andb_false_r.
    + destruct (py_eq (slot k d) v) eqn:He; cbn [negb].
      * cbn [apply_members fold_left]. unfold decide_operation.
        now rewrite Hn, Hrem, He.
      * cbn [apply_members fold_left apply_member op_replace op op_value].
        rewrite slot_set_same. unfold decide_operation.
        destruct (is_none v) eqn:Hv; cbn [negb].
        -- destruct child; [reflexivity|discriminate (Hc eq_refl)].
        -- now rewrite Hrem, Hr.
Qed.

(** Operations on the member [/c] act on that member of the record. *)
Lemma apply_patch_member_ops (c : string) (ops : list operation) :
  plain_name c = true ->
  (forall o, In o ops -> path o = "/" ++ c) ->
  forall E, apply_patch ops E = apply_members c ops E.
Proof.
  intros Hc. unfold apply_patch, apply_members.
  induction ops as [|o ops IH]; intros Hp E; [reflexivity|].
  cbn [fold_left]. unfold apply_operation at 2.
  rewrite (Hp o (or_introl eq_refl)), (pointer_segments_member _ Hc).
  apply IH. intros o' Hin. apply Hp. now right.
Qed.

(** Operations on [/c/cc] act on member [cc] of the sub-object [c]. *)
Lemma apply_patch_child_ops (c cc : string) (ops : list operation) :
  plain_name c = true -> plain_name cc = true ->
  (forall o, In o ops -> path o = "/" ++ c ++ "/" ++ cc) ->
  forall E sub,
    Dict.get c E = Some (VDict sub) ->
    Dict.get c (apply_patch ops E) = Some (VDict (apply_members cc ops sub))
    /\ forall k, k <> c -> Dict.get k (apply_patch ops E) = Dict.get k E.
Proof.
  intros Hc Hcc. unfold apply_patch, apply_members.
  induction ops as [|o ops IH]; intros Hp E sub HE; [now split|].
  cbn [fold_left].
  assert (Hstep : apply_operation o E
                  = Dict.set c (VDict (apply_member o cc sub)) E).
  { unfold apply_operation.
    now rewrite (Hp o (or_introl eq_refl)),
      (pointer_segments_child _ _ Hc Hcc), HE. }
  rewrite Hstep.
  destruct (IH (fun o' Hin => Hp o' (or_intror Hin))
              (Dict.set c (VDict (apply_member o cc sub)) E)
              (apply_member o cc sub) (get_set_same _ _ _)) as [H1 H2].
  split; [exact H1|].
  intros k Hk. rewrite (H2 k Hk). now apply get_set_other.
Qed.

Lemma child_targets_cons (pn cn : string) (cv : value) (rest : dict) :
  child_targets pn ((cn, cv) :: rest)
  = if negb (str_in (pn ++ "." ++ cn) ansible_specific_parameters)
    then vault_name cn :: child_targets pn rest
    else child_targets pn rest.
Proof.
  unfold child_targets. cbn [filter fst].
  now destruct (negb (str_in (pn ++ "." ++ cn) ansible_specific_parameters)).
Qed.

Lemma child_operations_cons (pn c cn : string) (cv : value) (rest sub : dict) :
  child_operations pn c (VDict sub) ((cn, cv) :: rest)
  = if negb (str_in (pn ++ "." ++ cn) ansible_specific_parameters)
    then let* more := child_operations pn c (VDict sub) rest in
         Ret (decide_operation true ("/" ++ c ++ "/" ++ vault_name cn)
                (slot (vault_name cn) sub) cv ++ more)%list
    else child_operations pn c (VDict sub) rest.
Proof. reflexivity. Qed.

(** The inner loop reads the sub-object only at the names it resolves. *)
Lemma child_operations_ext (pn c : string) (kids sub1 sub2 : dict) :
  (forall k, In k (child_targets pn kids) ->
     Dict.get k sub1 = Dict.get k sub2) ->
  child_operations pn c (VDict sub1) kids
  = child_operations pn c (VDict sub2) kids.
Proof.
  induction kids as [|[cn cv] kids IH]; intros H; [reflexivity|].
  rewrite !child_operations_cons. rewrite child_targets_cons in H.
  destruct (negb (str_in (pn ++ "." ++ cn) ansible_specific_parameters)).
  - rewrite IH by (intros k Hk; apply H; now right).
    unfold slot, referenced_value.
    now rewrite (H (vault_name cn) (or_introl eq_refl)).
  - now apply IH.
Qed.

(** A loop that returns although the existing value is not a dict has
    skipped every child. *)
Lemma child_operations_not_dict (pn c : string) (ev : value) (kids : dict)
    (ops : list operation) :
  is_dict ev = false ->
  child_operations pn c ev kids = Ret ops -> ops = [].
Proof.
  intros Hd. induction kids as [|[cn cv] kids IH]; cbn [child_operations].
  - intros H. now inversion H.
  - cbv zeta.
    destruct (negb (str_in (pn ++ "." ++ cn) ansible_specific_parameters)).
    + destruct ev; try discriminate.
    + exact IH.
Qed.

(** The inner loop, once its own operations are applied to the record:
    the sub-object is still there, nothing else in the record has changed,
    and the loop has nothing more to ask for. *)
Lemma child_operations_settle (pn c : string) :
  plain_name c = true ->
  forall (kids sub E : dict) (ops : list operation),
    child_operations pn c (VDict sub) kids = Ret ops ->
    distinct (child_targets pn kids) = true ->
    forallb plain_name (child_targets pn kids) = true ->
    (forall k x, In (k, x) kids -> wf_value x = true) ->
    Dict.get c E = Some (VDict sub) ->
    exists sub',
      Dict.get c (apply_patch ops E) = Some (VDict sub')
      /\ (forall k, k <> c -> Dict.get k (apply_patch ops E) = Dict.get k E)
      /\ (forall k, ~ In k (child_targets pn kids) ->
            Dict.get k sub' = Dict.get k sub)
      /\ child_operations pn c (VDict sub') kids = Ret [].
Proof.
  intros Hc. induction kids as [|[cn cv] kids IH];
    intros sub E ops Hops Hdis Hplain Hwf HE.
  - inversion Hops; subst. exists sub. now repeat split.
  - rewrite child_operations_cons in Hops. rewrite child_targets_cons in *.
    destruct (negb (str_in (pn ++ "." ++ cn) ansible_specific_parameters))
      eqn:Hf.
    + set (cc := vault_name cn) in *.
      remember (decide_operation true ("/" ++ c ++ "/" ++ cc)
                  (slot cc sub) cv) as ops1 eqn:Hops1.
      destruct (child_operations pn c (VDict sub) kids) as [more| |] eqn:Hmore;
        cbn [rbind] in Hops; try discriminate.
      inversion Hops; subst ops; clear Hops.
      apply distinct_cons in Hdis as [Hnotin Hdis].
      cbn [forallb] in Hplain. apply andb_true_iff in Hplain as [Hcc Hplain].
      assert (Hpath : forall o, In o ops1 -> path o = "/" ++ c ++ "/" ++ cc)
        by (rewrite Hops1; intros o; apply decide_operation_path).
      destruct (apply_patch_child_ops c cc ops1 Hc Hcc Hpath E sub HE)
        as [HE1 Hframe1].
      assert (Hmore1 : child_operations pn c
                         (VDict (apply_members cc ops1 sub)) kids = Ret more).
      { rewrite <- Hmore. apply child_operations_ext. intros k Hk.
        apply apply_members_other. intros ->. contradiction. }
      destruct (IH (apply_members cc ops1 sub) (apply_patch ops1 E) more
                  Hmore1 Hdis Hplain
                  (fun k x Hin => Hwf k x (or_intror Hin)) HE1)
        as (sub' & Hget & Hframe & Hsub & Hnil).
      exists sub'. unfold apply_patch in *. rewrite fold_left_app.
      split; [exact Hget|]. split; [|split].
      * intros k Hk. now rewrite (Hframe k Hk), (Hframe1 k Hk).
      * intros k Hk. rewrite (Hsub k (fun Hin => Hk (or_intror Hin))).
        apply apply_members_other. intros ->. apply Hk. now left.
      * rewrite child_operations_cons, Hf, Hnil. cbn [rbind].
        fold cc. unfold slot at 1, referenced_value.
        rewrite (Hsub cc Hnotin).
        fold (referenced_value cc (apply_members cc ops1 sub) VNone).
        fold (slot cc (apply_members cc ops1 sub)).
        rewrite Hops1, decide_settles; [reflexivity| |discriminate].
        apply py_eq_refl, (Hwf cn cv). now left.
    + destruct (IH sub E ops Hops Hdis Hplain
                  (fun k x Hin => Hwf k x (or_intror Hin)) HE)
        as (sub' & Hget & Hframe & Hsub & Hnil).
      exists sub'. rewrite child_operations_cons, Hf. now repeat split.
Qed.

Lemma targets_cons (name : string) (v : value) (rest : dict) :
  targets ((name, v) :: rest)
  = if supplied name v then vault_name name :: targets rest
    else targets rest.
Proof. unfold targets. cbn [filter fst snd]. now destruct (supplied name v). Qed.

Lemma update_operations_cons (name : string) (v : value) (rest E : dict) :
  update_operations ((name, v) :: rest) (VDict E)
  = if supplied name v
    then let* ops := parameter_operations name (vault_name name) v
                       (slot (vault_name name) E) in
         let* more := update_operations rest (VDict E) in
         Ret (ops ++ more)%list
    else update_operations rest (VDict E).
Proof. reflexivity. Qed.

(** The builder reads the record only at the names it resolves. *)
Lemma update_operations_ext (params E1 E2 : dict) :
  (forall k, In k (targets params) -> Dict.get k E1 = Dict.get k E2) ->
  update_operations params (VDict E1) = update_operations params (VDict E2).
Proof.
  induction params as [|[name v] params IH]; intros H; [reflexivity|].
  rewrite !update_operations_cons. rewrite targets_cons in H.
  destruct (supplied name v).
  - rewrite IH by (intros k Hk; apply H; now right).
    unfold slot, referenced_value.
    now rewrite (H (vault_name name) (or_introl eq_refl)).
  - now apply IH.
Qed.

(** One supplied parameter, once its own operations are applied. *)
Lemma parameter_operations_settle (name : string) (v : value) (E : dict)
    (ops : list operation) :
  supplied name v = true ->
  regular_parameter (name, v) = true ->
  parameter_operations name (vault_name name) v (slot (vault_name name) E)
  = Ret ops ->
  parameter_operations name (vault_name name) v
    (slot (vault_name name) (apply_patch ops E)) = Ret []
  /\ forall k, k <> vault_name name ->
       Dict.get k (apply_patch ops E) = Dict.get k E.
Proof.
  intros Hs Hreg. unfold regular_parameter in Hreg. cbn [fst snd] in Hreg.
  rewrite Hs in Hreg. cbn [negb orb] in Hreg.
  apply andb_true_iff in Hreg as [Hreg Hkids].
  apply andb_true_iff in Hreg as [Hc Hwf].
  set (c := vault_name name) in *.
  assert (Hscalar : forall ops',
            Ret (decide_operation false ("/" ++ c) (slot c E) v) = Ret ops' ->
            Ret (decide_operation false ("/" ++ c)
                   (slot c (apply_patch ops' E)) v) = Ret []
            /\ forall k, k <> c ->
                 Dict.get k (apply_patch ops' E) = Dict.get k E).
  { intros ops' H. inversion H; subst ops'; clear H.
    rewrite (apply_patch_member_ops c _ Hc
               (fun o => decide_operation_path _ _ _ _ o)).
    split.
    - rewrite decide_settles; [reflexivity|now apply py_eq_refl|].
      intros _. unfold supplied in Hs. apply andb_true_iff in Hs as [_ Hs].
      now apply negb_true_iff in Hs.
    - intros k Hk. now apply apply_members_other. }
  destruct v as [|bv|n|s|l|kids]; cbn [parameter_operations];
    try (apply Hscalar).
  intros Hops.
  destruct (slot c E) as [| | | | |sub] eqn:Hslot;
    try (assert (ops = [])
           by (eapply child_operations_not_dict; [|exact Hops]; reflexivity);
         subst ops; cbn [apply_patch fold_left]; rewrite Hslot; now split).
  assert (HE : Dict.get c E = Some (VDict sub)).
  { unfold slot, referenced_value in Hslot.
    destruct (Dict.get c E); [now subst|discriminate]. }
  apply andb_true_iff in Hkids as [Hdis Hplain].
  destruct (child_operations_settle name c Hc kids sub E ops Hops Hdis Hplain
              (fun k x Hin => wf_dict_items kids k x Hwf Hin) HE)
    as (sub' & Hget & Hframe & _ & Hnil).
  split; [|exact Hframe].
  unfold slot, referenced_value. now rewrite Hget.
Qed.

(** The builder, once its own operations are applied to the record. *)
Lemma update_operations_settle (params : dict) :
  forall (E : dict) (ops : list operation),
    update_operations params (VDict E) = Ret ops ->
    distinct (targets params) = true ->
    forallb regular_parameter params = true ->
    update_operations params (VDict (apply_patch ops E)) = Ret []
    /\ forall k, ~ In k (targets params) ->
         Dict.get k (apply_patch ops E) = Dict.get k E.
Proof.
  induction params as [|[name v] params IH]; intros E ops Hops Hdis Hreg.
  - inversion Hops; subst. now split.
  - rewrite update_operations_cons in *. rewrite targets_cons in *.
    cbn [forallb] in Hreg. apply andb_true_iff in Hreg as [Hr Hreg].
    destruct (supplied name v) eqn:Hs.
    + destruct (parameter_operations name (vault_name name) v
                  (slot (vault_name name) E)) as [ops1| |] eqn:H1;
        cbn [rbind] in Hops; try discriminate.
      destruct (update_operations params (VDict E)) as [more| |] eqn:Hmore;
        cbn [rbind] in Hops; try discriminate.
      inversion Hops; subst ops; clear Hops.
      apply distinct_cons in Hdis as [Hnotin Hdis].
      destruct (parameter_operations_settle name v E ops1 Hs Hr H1)
        as [Hnil1 Hframe1].
      assert (Hmore1 : update_operations params (VDict (apply_patch ops1 E))
                       = Ret more).
      { rewrite <- Hmore. apply update_operations_ext. intros k Hk.
        apply Hframe1. intros ->. contradiction. }
      destruct (IH (apply_patch ops1 E) more Hmore1 Hdis Hreg)
        as [Hnil Hframe].
      unfold apply_patch in *. rewrite fold_left_app. split.
      * rewrite Hnil. unfold slot at 1, referenced_value.
        rewrite (Hframe (vault_name name) Hnotin).
        unfold slot, referenced_value in Hnil1. now rewrite Hnil1.
      * intros k Hk. rewrite (Hframe k (fun Hin => Hk (or_intror Hin))).
        apply Hframe1. intros ->. apply Hk. now left.
    + now apply IH.
Qed.

(** C7, counterexample.  Two children of [platform_account_properties]
    resolve to the same member [userName]: the patch sets it to the second
    one's value, and the builder run on the patched record asks to set it
    back to the first one's. *)
Lemma rebuild_after_patch_not_empty :
  update_operations (module_params args_aliased_children)
    (VDict record_with_property)
  = Ret [op_replace "/platformAccountProperties/userName" (VStr "b")]
  /\ update_operations (module_params args_aliased_children)
       (VDict (apply_patch
                 [op_replace "/platformAccountProperties/userName" (VStr "b")]
                 record_with_property))
     = Ret [op_replace "/platformAccountProperties/userName" (VStr "a")].
Proof. split; reflexivity. Qed.

(** C7, as amended.  Whenever the builder returns an operation list for
    parameters that resolve to pairwise distinct vault names, each of them
    regular (plain names, children resolving to pairwise distinct plain
    names, values with unique dict keys), the builder run again on the
    record with that list applied returns the empty list. *)
Theorem update_operations_idempotent (params E : dict) (ops : list operation) :
  update_operations params (VDict E) = Ret ops ->
  distinct (targets params) = true ->
  forallb regular_parameter params = true ->
  update_operations params (VDict (apply_patch ops E)) = Ret [].
Proof.
  intros Hops Hdis Hreg.
  exact (proj1 (update_operations_settle params E ops Hops Hdis Hreg)).
Qed.

Lemma update_operations_idempotent_witness :
  update_operations (module_params args_update)
    (VDict (apply_patch
              [op_replace "/address" (VStr "10.0.0.2");
               op_replace "/secretManagement/automaticManagementEnabled"
                 (VBool false)]
              record_items))
  = Ret [].
Proof.
  apply (update_operations_idempotent (module_params args_update) record_items);
    reflexivity.
Defined.

(** * Further properties *)

(** ** [deep_get] *)

Lemma deep_get_loop_default_outcomes (path : list string) :
  forall dct result_dct dv r,
    (exists v, deep_get_loop dct result_dct path (Some dv) r = Ret v)
    \/ deep_get_loop dct result_dct path (Some dv) r = Raise AttributeError.
Proof.
  induction path as [|key path IH]; intros dct cur dv r; cbn [deep_get_loop].
  - left. now exists cur.
  - destruct cur; try (now right).
    destruct (if Nat.eqb (List.length d) 0 then dct else VDict d);
      try (now right).
    destruct (Dict.get _ d0); [apply IH|].
    destruct (Dict.get key d0); [apply IH|].
    left. now exists dv.
Qed.

(** X1.  Called with a default, [deep_get] either returns a value or
    raises an AttributeError: a KeyError never escapes it, and it never
    ends the run. *)
Theorem deep_get_with_default_outcomes (dct : value) (dotted_path : string)
    (dv : value) (use_reference_table : bool) :
  (exists v, deep_get dct dotted_path (Some dv) use_reference_table = Ret v)
  \/ deep_get dct dotted_path (Some dv) use_reference_table
     = Raise AttributeError.
Proof. apply deep_get_loop_default_outcomes. Qed.

Lemma deep_get_undotted_reference (d : dict) (field : string) (dv : value) :
  str_mem "." field = false ->
  deep_get (VDict d) field (Some dv) true
  = Ret (match Dict.get (vault_name field) d with
         | Some v => v
         | None => match Dict.get field d with Some v => v | None => dv end
         end).
Proof.
  intros H. unfold deep_get. rewrite (split_on_absent _ _ H).
  cbn [deep_get_loop List.length Nat.eqb]. fold (vault_name field).
  destruct (Dict.get (vault_name field) d); [reflexivity|].
  now destruct (Dict.get field d).
Qed.

(** X2.  With the reference table on, a one-segment lookup prefers the
    renamed key, falls back to the key as given, and only then to the
    default. *)
Theorem deep_get_prefers_renamed (d : dict) (field : string) (dv : value) :
  str_mem "." field = false ->
  deep_get (VDict d) field (Some dv) true
  = Ret (match Dict.get (vault_name field) d with
         | Some v => v
         | None => match Dict.get field d with Some v => v | None => dv end
         end).
Proof. apply deep_get_undotted_reference. Qed.

Lemma deep_get_prefers_renamed_witness :
  deep_get (VDict [("username", VStr "given"); ("userName", VStr "renamed")])
    "username" (Some (VStr "NOT FOUND")) true
  = Ret (VStr "renamed").
Proof.
  apply (deep_get_prefers_renamed
           [("username", VStr "given"); ("userName", VStr "renamed")]
           "username" (VStr "NOT FOUND")).
  reflexivity.
Defined.

(** X3.  A path that leads into an empty sub-object starts again at the
    root container: the rest of the path is looked up in the container
    [deep_get] was called with. *)
Theorem deep_get_restarts_at_root (d : dict) (key rest : string)
    (default : option value) :
  str_mem "." key = false ->
  Dict.get key d = Some (VDict []) ->
  deep_get (VDict d) (key ++ "." ++ rest) default false
  = deep_get (VDict d) rest default false.
Proof.
  intros Hk Hg. unfold deep_get.
  change (key ++ "." ++ rest) with (key ++ String "."%char rest).
  rewrite (split_on_app _ _ _ Hk).
  cbn [deep_get_loop List.length Nat.eqb]. now rewrite Hg.
Qed.

Lemma deep_get_restarts_at_root_witness :
  deep_get (VDict [("secret_management", VDict []); ("new_secret", VStr "s")])
    ("secret_management" ++ "." ++ "new_secret") (Some (VStr "NOT_FOUND")) false
  = deep_get (VDict [("secret_management", VDict []); ("new_secret", VStr "s")])
      "new_secret" (Some (VStr "NOT_FOUND")) false.
Proof.
  apply (deep_get_restarts_at_root
           [("secret_management", VDict []); ("new_secret", VStr "s")]
           "secret_management" "new_secret"); reflexivity.
Defined.

(** X4.  A path that goes on below a value that is not a dict raises an
    AttributeError, with or without a default. *)
Theorem deep_get_below_non_dict (d : dict) (key rest : string) (v : value)
    (default : option value) :
  str_mem "." key = false ->
  Dict.get key d = Some v ->
  is_dict v = false ->
  deep_get (VDict d) (key ++ "." ++ rest) default false
  = Raise AttributeError.
Proof.
  intros Hk Hg Hv. unfold deep_get.
  change (key ++ "." ++ rest) with (key ++ String "."%char rest).
  rewrite (split_on_app _ _ _ Hk).
  cbn [deep_get_loop List.length Nat.eqb]. rewrite Hg.
  pose proof (split_on_nonempty "." rest) as Hne.
  destruct (split_on "." rest) as [|k2 path]; [contradiction|].
  now apply deep_get_loop_below_scalar.
Qed.

Lemma deep_get_below_non_dict_witness :
  deep_get (VDict [("address", VStr "10.0.0.1")]) ("address" ++ "." ++ "port")
    (Some (VStr "NOT FOUND")) false
  = Raise AttributeError.
Proof.
  apply (deep_get_below_non_dict [("address", VStr "10.0.0.1")]
           "address" "port" (VStr "10.0.0.1")); reflexivity.
Defined.

(** X5.  Without a default, a one-segment lookup of a key the dict has
    under neither name propagates the KeyError. *)
Theorem deep_get_missing_raises (d : dict) (field : string)
    (use_reference_table : bool) :
  str_mem "." field = false ->
  Dict.get field d = None ->
  Dict.get (vault_name field) d = None ->
  deep_get (VDict d) field None use_reference_table = Raise KeyError.
Proof.
  intros H Hf Hv. unfold deep_get. rewrite (split_on_absent _ _ H).
  cbn [deep_get_loop List.length Nat.eqb]. fold (vault_name field).
  destruct use_reference_table; now rewrite ?Hv, Hf.
Qed.

Lemma deep_get_missing_raises_witness :
  deep_get (VDict [("address", VStr "10.0.0.1")]) "username" None true
  = Raise KeyError.
Proof.
  apply (deep_get_missing_raises [("address", VStr "10.0.0.1")] "username" true);
    reflexivity.
Defined.

(** ** The operations the builder emits *)

Lemma decide_operation_shape (child : bool) (p : string) (ev v : value)
    (o : operation) :
  In o (decide_operation child p ev v) ->
  path o = p
  /\ (op o = Add ->
      is_none ev = true /\ op_value o = Some v
      /\ py_eq v removal_value = false /\ (child = true -> is_none v = false))
  /\ (op o = Replace ->
      is_none ev = false /\ op_value o = Some v
      /\ py_eq v removal_value = false)
  /\ (op o = Remove -> is_none ev = false /\ op_value o = None).
Proof.
  unfold decide_operation.
  destruct (is_none ev) eqn:Hn; cbn [negb].
  - destruct (py_eq v removal_value) eqn:Hrem.
    + rewrite andb_false_r. intros [].
    + rewrite andb_true_r.
      destruct (negb child || negb (is_none v))%bool eqn:Hc; [|intros []].
      intros [<-|[]]. cbn. repeat split; try discriminate.
      intros ->. now apply negb_true_iff in Hc.
  - destruct (py_eq v removal_value) eqn:Hrem.
    + intros [<-|[]]. cbn. repeat split; discriminate.
    + destruct (negb (py_eq ev v)); [|intros []].
      intros [<-|[]]. cbn. repeat split; discriminate.
Qed.

(** Where an operation of the inner loop comes from. *)
Lemma child_operations_origin (pn c : string) (ev : value) (kids : dict) :
  forall (ops : list operation) (o : operation),
    child_operations pn c ev kids = Ret ops ->
    In o ops ->
    exists sub cn cv,
      ev = VDict sub /\ In (cn, cv) kids
      /\ str_in (pn ++ "." ++ cn) ansible_specific_parameters = false
      /\ In o (decide_operation true ("/" ++ c ++ "/" ++ vault_name cn)
                 (slot (vault_name cn) sub) cv).
Proof.
  destruct ev as [| | | | |sub];
    try (intros ops o Hops Hin;
         assert (ops = [])
           by (eapply child_operations_not_dict; [|exact Hops]; reflexivity);
         subst ops; destruct Hin).
  induction kids as [|[cn cv] kids IH]; intros ops o Hops Hin.
  - inversion Hops; subst. destruct Hin.
  - rewrite child_operations_cons in Hops.
    destruct (negb (str_in (pn ++ "." ++ cn) ansible_specific_parameters))
      eqn:Hf.
    + remember (decide_operation true ("/" ++ c ++ "/" ++ vault_name cn)
                  (slot (vault_name cn) sub) cv) as ops1 eqn:Hops1.
      destruct (child_operations pn c (VDict sub) kids) as [more| |];
        cbn [rbind] in Hops; try discriminate.
      inversion Hops; subst ops; clear Hops.
      apply in_app_or in Hin as [Hin|Hin].
      * exists sub, cn, cv. rewrite Hops1 in Hin.
        apply negb_true_iff in Hf. repeat split; try assumption. now left.
      * destruct (IH more o eq_refl Hin) as (sub' & cn' & cv' & E & Hk & Hs & Ho).
        exists sub', cn', cv'. repeat split; try assumption. now right.
    + destruct (IH ops o Hops Hin) as (sub' & cn' & cv' & E & Hk & Hs & Ho).
      exists sub', cn', cv'. repeat split; try assumption. now right.
Qed.

(** Where an operation of the builder comes from. *)
Lemma update_operations_origin (params e : dict) :
  forall (ops : list operation) (o : operation),
    update_operations params (VDict e) = Ret ops ->
    In o ops ->
    exists name v ops1,
      In (name, v) params /\ supplied name v = true
      /\ parameter_operations name (vault_name name) v
           (slot (vault_name name) e) = Ret ops1
      /\ In o ops1.
Proof.
  induction params as [|[name v] params IH]; intros ops o Hops Hin.
  - inversion Hops; subst. destruct Hin.
  - rewrite update_operations_cons in Hops.
    destruct (supplied name v) eqn:Hs.
    + destruct (parameter_operations name (vault_name name) v
                  (slot (vault_name name) e)) as [ops1| |] eqn:H1;
        cbn [rbind] in Hops; try discriminate.
      destruct (update_operations params (VDict e)) as [more| |];
        cbn [rbind] in Hops; try discriminate.
      inversion Hops; subst ops; clear Hops.
      apply in_app_or in Hin as [Hin|Hin].
      * exists name, v, ops1. repeat split; try assumption. now left.
      * destruct (IH more o eq_refl Hin) as (n' & v' & o' & Hk & Hs' & Hp & Ho).
        exists n', v', o'. repeat split; try assumption. now right.
    + destruct (IH ops o Hops Hin) as (n' & v' & o' & Hk & Hs' & Hp & Ho).
      exists n', v', o'. repeat split; try assumption. now right.
Qed.

(** X6.  What the operations of a patch carry: an [add] carries a value
    that is neither [None] nor the removal sentinel, a [replace] carries a
    value that is not the sentinel, a [remove] carries no value. *)
Theorem update_operations_values (params e : dict) (ops : list operation)
    (o : operation) :
  update_operations params (VDict e) = Ret ops ->
  In o ops ->
  (op o = Add ->
   exists v, op_value o = Some v /\ v <> VNone /\ v <> removal_value)
  /\ (op o = Replace -> exists v, op_value o = Some v /\ v <> removal_value)
  /\ (op o = Remove -> op_value o = None).
Proof.
  intros Hops Hin.
  destruct (update_operations_origin params e ops o Hops Hin)
    as (name & v & ops1 & _ & Hs & Hp & Ho).
  assert (Hv : is_none v = false).
  { unfold supplied in Hs. apply andb_true_iff in Hs as [_ Hs].
    now apply negb_true_iff in Hs. }
  assert (Hdone : forall child p ev w,
            (child = false -> is_none w = false) ->
            In o (decide_operation child p ev w) ->
            (op o = Add ->
             exists v, op_value o = Some v /\ v <> VNone /\ v <> removal_value)
            /\ (op o = Replace ->
                exists v, op_value o = Some v /\ v <> removal_value)
            /\ (op o = Remove -> op_value o = None)).
  { intros child p ev w Hw Hd.
    destruct (decide_operation_shape child p ev w o Hd) as (_ & Ha & Hr & Hm).
    split; [|split].
    - intros E. destruct (Ha E) as (_ & Hval & Hrem & Hc). exists w.
      split; [exact Hval|]. split.
      + apply is_none_false. destruct child; [now apply Hc|now apply Hw].
      + now apply py_eq_str_false.
    - intros E. destruct (Hr E) as (_ & Hval & Hrem). exists w.
      split; [exact Hval|]. now apply py_eq_str_false.
    - intros E. now destruct (Hm E). }
  destruct v as [|bv|n|s|l|kids]; cbn [parameter_operations] in Hp;
    try (inversion Hp; subst ops1;
         apply (Hdone false _ _ _ (fun _ => Hv) Ho)).
  destruct (child_operations_origin _ _ _ _ _ _ Hp Ho)
    as (sub & cn & cv & _ & _ & _ & Hd).
  apply (Hdone true _ _ _ (fun E => False_ind _ (diff_true_false E)) Hd).
Qed.

Lemma update_operations_values_witness :
  (op (op_replace "/address" (VStr "10.0.0.2")) = Add ->
   exists v, op_value (op_replace "/address" (VStr "10.0.0.2")) = Some v
             /\ v <> VNone /\ v <> removal_value)
  /\ (op (op_replace "/address" (VStr "10.0.0.2")) = Replace ->
      exists v, op_value (op_replace "/address" (VStr "10.0.0.2")) = Some v
                /\ v <> removal_value)
  /\ (op (op_replace "/address" (VStr "10.0.0.2")) = Remove ->
      op_value (op_replace "/address" (VStr "10.0.0.2")) = None).
Proof.
  apply (update_operations_values (module_params args_update) record_items
           [op_replace "/address" (VStr "10.0.0.2");
            op_replace "/secretManagement/automaticManagementEnabled"
              (VBool false)]).
  - reflexivity.
  - simpl. left. reflexivity.
Defined.

(** X7.  Every operation fits the record it was built against, when the
    vault names of the supplied parameters and of their children hold no
    [/]: an [add] points where the record holds nothing (or null), a
    [replace] or [remove] points at a value the record holds. *)
Theorem update_operations_fit_record (params e : dict) (ops : list operation)
    (o : operation) :
  update_operations params (VDict e) = Ret ops ->
  forallb plain_parameter params = true ->
  In o ops ->
  (op o = Add -> existing_at e (path o) = VNone)
  /\ (op o <> Add -> existing_at e (path o) <> VNone).
Proof.
  intros Hops Hreg Hin.
  destruct (update_operations_origin params e ops o Hops Hin)
    as (name & v & ops1 & Hk & Hs & Hp & Ho).
  rewrite forallb_forall in Hreg. pose proof (Hreg _ Hk) as Hr.
  unfold plain_parameter in Hr. cbn [fst snd] in Hr. rewrite Hs in Hr.
  cbn [negb orb] in Hr. apply andb_true_iff in Hr as [Hc Hplain].
  assert (Hdone : forall child p ev w,
            existing_at e p = ev ->
            In o (decide_operation child p ev w) ->
            (op o = Add -> existing_at e (path o) = VNone)
            /\ (op o <> Add -> existing_at e (path o) <> VNone)).
  { intros child p ev w Hat Hd.
    destruct (decide_operation_shape child p ev w o Hd) as (Hpath & Ha & Hrp & Hm).
    rewrite Hpath, Hat. split.
    - intros E. destruct (Ha E) as (Hn & _). now apply is_none_true.
    - intros E. apply is_none_false.
      destruct (op o); [contradiction|now apply Hrp|now apply Hm]. }
  assert (Hat : existing_at e ("/" ++ vault_name name)
                = slot (vault_name name) e).
  { unfold existing_at. now rewrite (pointer_segments_member _ Hc). }
  destruct v as [|bv|n|s|l|kids]; cbn [parameter_operations] in Hp;
    try (inversion Hp; subst ops1; exact (Hdone false _ _ _ Hat Ho)).
  destruct (child_operations_origin _ _ _ _ _ _ Hp Ho)
    as (sub & cn & cv & Hsub & Hkid & Hf & Hd).
  rewrite forallb_forall in Hplain.
  assert (Hcc : plain_name (vault_name cn) = true).
  { apply Hplain. unfold child_targets.
    change (vault_name cn) with ((fun kv : string * value => vault_name (fst kv)) (cn, cv)).
    apply in_map. apply filter_In. split; [exact Hkid|].
    cbn [fst]. now rewrite Hf. }
  assert (Hat2 : existing_at e ("/" ++ vault_name name ++ "/" ++ vault_name cn)
                 = slot (vault_name cn) sub).
  { unfold existing_at.
    now rewrite (pointer_segments_child _ _ Hc Hcc), Hsub. }
  exact (Hdone true _ _ _ Hat2 Hd).
Qed.

Lemma update_operations_fit_record_witness :
  (op (op_replace "/platformAccountProperties/userName" (VStr "b")) = Add ->
   existing_at record_with_property "/platformAccountProperties/userName"
   = VNone)
  /\ (op (op_replace "/platformAccountProperties/userName" (VStr "b")) <> Add ->
      existing_at record_with_property "/platformAccountProperties/userName"
      <> VNone).
Proof.
  apply (update_operations_fit_record (module_params args_aliased_children)
           record_with_property
           [op_replace "/platformAccountProperties/userName" (VStr "b")]).
  - reflexivity.
  - reflexivity.
  - simpl. left. reflexivity.
Defined.

Lemma child_operations_dict_returns (pn c : string) (sub kids : dict) :
  exists ops, child_operations pn c (VDict sub) kids = Ret ops.
Proof.
  induction kids as [|[cn cv] kids [ops IH]].
  - now exists [].
  - rewrite child_operations_cons, IH. cbn [rbind].
    destruct (negb (str_in (pn ++ "." ++ cn) ansible_specific_parameters));
      eexists; reflexivity.
Qed.

(** X8.  The builder returns an operation list whenever the record holds
    a sub-object for every supplied parameter that is a dict. *)
Theorem update_operations_returns (params e : dict) :
  (forall name kids,
     In (name, VDict kids) params ->
     supplied name (VDict kids) = true ->
     is_dict (slot (vault_name name) e) = true) ->
  exists ops, update_operations params (VDict e) = Ret ops.
Proof.
  induction params as [|[name v] params IH]; intros H.
  - now exists [].
  - destruct IH as [more IH];
      [intros n k Hin; apply H; now right|].
    rewrite update_operations_cons, IH.
    destruct (supplied name v) eqn:Hs; [|now exists more].
    destruct v as [|bv|n|s|l|kids]; cbn [parameter_operations rbind];
      try (eexists; reflexivity).
    pose proof (H name kids (or_introl eq_refl) Hs) as Hd.
    destruct (slot (vault_name name) e) as [| | | | |sub]; try discriminate.
    destruct (child_operations_dict_returns name (vault_name name) sub kids)
      as [ops ->].
    cbn [rbind]. eexists; reflexivity.
Qed.

Lemma update_operations_returns_witness :
  exists ops,
    update_operations (module_params args_update) (VDict record_items) = Ret ops.
Proof.
  apply (update_operations_returns (module_params args_update) record_items).
  intros name kids Hin Hs. simpl in Hin.
  repeat (destruct Hin as [Hin|Hin]; [inversion Hin; subst; try discriminate;
                                      try reflexivity|]).
  destruct Hin.
Defined.

(** ** The mutating calls *)

(** X9.  [update_account] sends nothing and reports no change (status
    code -1) when the builder has no operation; otherwise it sends one
    PATCH to the account's URL with all operations, returns the response
    body as the new record, and turns an [HTTPError] into [fail_json] with
    the server's code. *)
Theorem update_account_sends_patch (open_url : request -> reply)
    (params : dict) (existing session vc token st id : value) (b : string)
    (ops : list operation) :
  getparam params "cyberark_session" = Ret session ->
  getitem session "api_base_url" = Ret (VStr b) ->
  getitem session "validate_certs" = Ret vc ->
  getparam params "state" = Ret st ->
  getitem existing "id" = Ret id ->
  getitem session "token" = Ret token ->
  update_operations params existing = Ret ops ->
  let end_point := "/PasswordVault/api/Accounts/" ++ py_str id in
  let req := mkReq "PATCH" (b ++ end_point) token
               (Some (VList (map operation_value ops))) vc in
  match ops with
  | [] => update_account open_url params existing
          = ([], Ret (false, existing, -1))
  | _ =>
      fst (update_account open_url params existing) = [req]
      /\ (forall code body, open_url req = Response code (Some body) ->
            snd (update_account open_url params existing)
            = Ret (true, body, code))
      /\ (forall code body, open_url req = HTTPError code body ->
            snd (update_account open_url params existing)
            = FailJson (HttpFailure "update_account" end_point code))
  end.
Proof.
  intros Hs Hb Hv Hst Hid Ht Hops end_point req. subst req end_point.
  unfold update_account.
  rewrite Hs. cbn [lift io_bind]. rewrite Hb. cbn [io_bind].
  rewrite Hv. cbn [io_bind]. rewrite Hst. cbn [io_bind].
  rewrite Hid. cbn [io_bind]. rewrite Ht. cbn [io_bind].
  rewrite Hops. cbn [io_bind app].
  destruct ops as [|o ops]; [reflexivity|].
  cbn [request_url send io_bind app].
  split; [|split].
  - destruct (open_url _) as [code [body|]|code body| | |code|code]; reflexivity.
  - intros code body ->. reflexivity.
  - intros code body ->. reflexivity.
Qed.

Lemma update_account_sends_patch_witness :
  fst (update_account (vault_with [record_example]) (module_params args_update)
         record_example)
  = [mkReq "PATCH"
       ("https://vault.example" ++ "/PasswordVault/api/Accounts/" ++ "12_3")
       (VStr "TOKEN")
       (Some (VList (map operation_value
                       [op_replace "/address" (VStr "10.0.0.2");
                        op_replace
                          "/secretManagement/automaticManagementEnabled"
                          (VBool false)])))
       (VBool true)].
Proof.
  apply (update_account_sends_patch (vault_with [record_example])
           (module_params args_update) record_example session_example
           (VBool true) (VStr "TOKEN") (VStr "present") (VStr "12_3")
           "https://vault.example"
           [op_replace "/address" (VStr "10.0.0.2");
            op_replace "/secretManagement/automaticManagementEnabled"
              (VBool false)]); reflexivity.
Defined.

(** X10.  Every entry of the payload the loop of [add_account] returns is
    either an entry of the payload the loop started with, which is not
    tested, or the value of a supplied parameter, one that is neither a
    control parameter nor [None], stored under its vault name; a value the
    loop stores is never the removal sentinel. *)
Theorem add_payload_entries (params items : dict) :
  forall (payload0 payload : dict) (k : string) (v : value),
    add_payload params items payload0 = Ret payload ->
    Dict.get k payload = Some v ->
    Dict.get k payload0 = Some v
    \/ exists name w r,
         In (name, w) items /\ supplied name w = true
         /\ k = vault_name name
         /\ deep_get (VDict params) name None r = Ret v
         /\ v <> removal_value.
Proof.
  induction items as [|[name w] items IH]; intros payload0 payload k v Hp Hk;
    cbn [add_payload] in Hp.
  - inversion Hp; subst. now left.
  - assert (Hrest : forall q, add_payload params items q = Ret payload ->
              Dict.get k q = Some v
              \/ exists name' w' r,
                   In (name', w') ((name, w) :: items)
                   /\ supplied name' w' = true /\ k = vault_name name'
                   /\ deep_get (VDict params) name' None r = Ret v
                   /\ v <> removal_value).
    { intros q Hq. destruct (IH q payload k v Hq Hk)
        as [H|(n' & w' & r & Hin & Hs & E & Hd & Hv)]; [now left|].
      right. exists n', w', r. repeat split; try assumption. now right. }
    fold (supplied name w) in Hp.
    destruct (supplied name w) eqn:Hs; [|now apply Hrest].
    assert (Hstep : forall r mv key,
              key = vault_name name ->
              deep_get (VDict params) name None r = Ret mv ->
              add_payload params items
                (if negb (py_eq mv removal_value)
                 then Dict.set key mv payload0 else payload0) = Ret payload ->
              Dict.get k payload0 = Some v
              \/ exists name' w' r',
                   In (name', w') ((name, w) :: items)
                   /\ supplied name' w' = true /\ k = vault_name name'
                   /\ deep_get (VDict params) name' None r' = Ret v
                   /\ v <> removal_value).
    { intros r mv key Hkey Hd Hq.
      destruct (py_eq mv removal_value) eqn:Hrem; cbn [negb] in Hq;
        [now apply Hrest|].
      destruct (Hrest _ Hq) as [H|H]; [|now right].
      destruct (String.eqb k key) eqn:E.
      - apply String.eqb_eq in E. subst k. rewrite get_set_same in H.
        inversion H; subst mv. right. exists name, w, r.
        repeat split; try assumption; [now left|].
        now apply py_eq_str_false.
      - apply String.eqb_neq in E. rewrite (get_set_other _ _ _ _ E) in H.
        now left. }
    unfold vault_name, referenced_value in Hstep.
    destruct (Dict.get name cyberark_reference_fieldnames) as [cname|].
    + destruct (deep_get (VDict params) name None true) as [mv| |] eqn:Hd;
        cbn [rbind] in Hp; try discriminate.
      exact (Hstep true mv cname eq_refl Hd Hp).
    + destruct (deep_get (VDict params) name None false) as [mv| |] eqn:Hd;
        cbn [rbind] in Hp; try discriminate.
      exact (Hstep false mv name eq_refl Hd Hp).
Qed.

Lemma add_payload_entries_witness :
  Dict.get "userName" [("safeName", VStr "S1")] = Some (VStr "admin")
  \/ exists name w r,
       In (name, w) (module_params args_create)
       /\ supplied name w = true
       /\ "userName" = vault_name name
       /\ deep_get (VDict (module_params args_create)) name None r
          = Ret (VStr "admin")
       /\ VStr "admin" <> removal_value.
Proof.
  apply (add_payload_entries (module_params args_create)
           (module_params args_create) [("safeName", VStr "S1")]
           [("safeName", VStr "S1"); ("platformId", VStr "P1");
            ("address", VStr "10.0.0.1"); ("secretType", VStr "password");
            ("userName", VStr "admin")]); reflexivity.
Defined.

(** X11.  When the create call fails with anything but an HTTP error, or
    answers with a body that is not JSON, [add_account] does not reach
    [fail_json]: its handler names [traceback], which the module does not
    import, and the call ends in a NameError. *)
Theorem add_account_unknown_error_raises (open_url : request -> reply)
    (params payload : dict) (session vc token safe : value) (b : string) :
  getparam params "cyberark_session" = Ret session ->
  getitem session "api_base_url" = Ret (VStr b) ->
  getitem session "validate_certs" = Ret vc ->
  getitem session "token" = Ret token ->
  getparam params "safe" = Ret safe ->
  add_payload params params [("safeName", safe)] = Ret payload ->
  let req := mkReq "POST" (b ++ "/PasswordVault/api/Accounts") token
               (Some (VDict payload)) vc in
  open_url req = OtherError \/ (exists code, open_url req = Response code None) ->
  add_account open_url params = ([req], Raise NameError).
Proof.
  intros Hs Hb Hv Ht Hsafe Hp req Hrep. subst req. unfold add_account.
  rewrite Hs. cbn [lift io_bind]. rewrite Hb. cbn [io_bind].
  rewrite Hv. cbn [io_bind]. rewrite Ht. cbn [io_bind].
  rewrite Hsafe. cbn [io_bind]. rewrite Hp. cbn [io_bind request_url send app].
  destruct Hrep as [->|[code ->]]; reflexivity.
Qed.

Lemma add_account_unknown_error_raises_witness :
  add_account vault_unreachable (module_params args_create)
  = ([create_request_example], Raise NameError).
Proof.
  apply (add_account_unknown_error_raises vault_unreachable
           (module_params args_create)
           [("safeName", VStr "S1"); ("platformId", VStr "P1");
            ("address", VStr "10.0.0.1"); ("secretType", VStr "password");
            ("userName", VStr "admin")]
           session_example (VBool true) (VStr "TOKEN") (VStr "S1")
           "https://vault.example"); try reflexivity.
  left. reflexivity.
Defined.

(** X12.  [delete_account] sends one DELETE without a body to the
    account's URL; any response, whatever its body, is a success with a
    null record, and an [HTTPError] ends the run with the server's code. *)
Theorem delete_account_request (open_url : request -> reply) (params : dict)
    (existing session vc token id : value) (b : string) :
  getparam params "cyberark_session" = Ret session ->
  getitem session "api_base_url" = Ret (VStr b) ->
  getitem session "validate_certs" = Ret vc ->
  getitem existing "id" = Ret id ->
  getitem session "token" = Ret token ->
  let end_point := "/PasswordVault/api/Accounts/" ++ py_str id in
  let req := mkReq "DELETE" (b ++ end_point) token None vc in
  fst (delete_account open_url params existing) = [req]
  /\ (forall code body, open_url req = Response code body ->
        snd (delete_account open_url params existing) = Ret (true, VNone, code))
  /\ (forall code body, open_url req = HTTPError code body ->
        snd (delete_account open_url params existing)
        = FailJson (HttpFailure "delete_account" end_point code)).
Proof.
  intros Hs Hb Hv Hid Ht end_point req. subst req end_point.
  unfold delete_account.
  rewrite Hs. cbn [lift io_bind]. rewrite Hb. cbn [io_bind].
  rewrite Hv. cbn [io_bind]. rewrite Hid. cbn [io_bind].
  rewrite Ht. cbn [io_bind request_url send app].
  split; [|split].
  - destruct (open_url _) as [code body|code body| | |code|code]; reflexivity.
  - intros code body ->. reflexivity.
  - intros code body ->. reflexivity.
Qed.

Lemma delete_account_request_witness :
  fst (delete_account (vault_with [record_example]) (module_params args_absent)
         record_example)
  = [mkReq "DELETE"
       ("https://vault.example" ++ "/PasswordVault/api/Accounts/" ++ "12_3")
       (VStr "TOKEN") None (VBool true)].
Proof.
  apply (delete_account_request (vault_with [record_example])
           (module_params args_absent) record_example session_example
           (VBool true) (VStr "TOKEN") (VStr "12_3") "https://vault.example");
    reflexivity.
Defined.

(** ** The dispatcher *)

(** X13.  With state [absent] the run never creates, updates or rotates:
    when nothing was found it exits unchanged with the lookup's status
    code, and when a record was found all it does next is
    [delete_account], whose outcome is the run's. *)
Theorem main_absent (open_url : request -> reply) (args : dict)
    (l : list request) (found : bool) (account_record : value) (code : Z) :
  getparam (module_params args) "state" = Ret (VStr "absent") ->
  get_account open_url (module_params args)
  = (l, Ret (found, account_record, code)) ->
  (found = false ->
   main open_url args = (l, Ret (mkExit false account_record code)))
  /\ (found = true ->
      fst (main open_url args)
      = (l ++ fst (delete_account open_url (module_params args)
                     account_record))%list
      /\ snd (main open_url args)
         = match snd (delete_account open_url (module_params args)
                        account_record) with
           | Ret (changed, result, status_code) =>
               Ret (mkExit changed result status_code)
           | Raise e => Raise e
           | FailJson f => FailJson f
           end).
Proof.
  intros Hst Hg. unfold main. cbv zeta. rewrite Hst. cbn [lift io_bind].
  rewrite Hg. cbn [py_eq String.eqb Ascii.eqb Bool.eqb]. cbn [io_bind app].
  split; intros ->; cbn [andb].
  - cbn [io_ret]. now rewrite app_nil_r.
  - destruct (delete_account open_url (module_params args) account_record)
      as [ld [[[c res] sc]|e|f]]; cbn [io_bind io_ret fst snd];
      rewrite ?app_nil_r; now split.
Qed.

Lemma main_absent_witness :
  (true = false ->
   main (vault_with [record_example]) args_absent
   = (fst (get_account (vault_with [record_example])
             (module_params args_absent)),
      Ret (mkExit false record_example 200)))
  /\ (true = true ->
      fst (main (vault_with [record_example]) args_absent)
      = (fst (get_account (vault_with [record_example])
                (module_params args_absent))
         ++ fst (delete_account (vault_with [record_example])
                   (module_params args_absent) record_example))%list
      /\ snd (main (vault_with [record_example]) args_absent)
         = match snd (delete_account (vault_with [record_example])
                        (module_params args_absent) record_example) with
           | Ret (changed, result, status_code) =>
               Ret (mkExit changed result status_code)
           | Raise e => Raise e
           | FailJson f => FailJson f
           end).
Proof.
  apply (main_absent (vault_with [record_example]) args_absent
           (fst (get_account (vault_with [record_example])
                   (module_params args_absent)))
           true record_example 200); reflexivity.
Defined.

(** X14.  With state [present], when the create or update and the
    rotation both return, the run reports the record and the status code
    of the create or update (not those of the rotation), and a change as
    soon as either of the two changed something. *)
Theorem main_present (open_url : request -> reply) (args : dict)
    (l l1 l2 : list request) (found changed1 account_reset : bool)
    (account_record result reset_result : value)
    (code status_code1 reset_status_code : Z) :
  getparam (module_params args) "state" = Ret (VStr "present") ->
  get_account open_url (module_params args)
  = (l, Ret (found, account_record, code)) ->
  (if found then update_account open_url (module_params args) account_record
   else add_account open_url (module_params args))
  = (l1, Ret (changed1, result, status_code1)) ->
  reset_account_if_needed open_url (module_params args) result
  = (l2, Ret (account_reset, reset_result, reset_status_code)) ->
  main open_url args
  = ((l ++ l1 ++ l2)%list,
     Ret (mkExit (account_reset || changed1) result status_code1)).
Proof.
  intros Hst Hg Hstep Hreset. unfold main. cbv zeta. rewrite Hst.
  cbn [lift io_bind]. rewrite Hg.
  cbn [py_eq String.eqb Ascii.eqb Bool.eqb]. cbn [io_bind app].
  rewrite Hstep. cbn [io_bind]. rewrite Hreset. cbn [io_bind io_ret].
  rewrite app_nil_r. now destruct account_reset.
Qed.

Lemma main_present_witness :
  main (vault_with [record_example]) args_change_bare_secret
  = ((fst (get_account (vault_with [record_example])
             (module_params args_change_bare_secret))
      ++ fst (update_account (vault_with [record_example])
                (module_params args_change_bare_secret) record_example)
      ++ fst (reset_account_if_needed (vault_with [record_example])
                (module_params args_change_bare_secret) record_example))%list,
     Ret (mkExit (true || true) record_example 201)).
Proof.
  apply (main_present (vault_with [record_example]) args_change_bare_secret
           _ _ _ true true true record_example record_example VNone
           200 201 201); reflexivity.
Defined.

Lemma io_bind_length {A B : Type} (m : io A) (k : A -> io B) (n1 n2 : nat) :
  (List.length (fst m) <= n1)%nat ->
  (forall a, (List.length (fst (k a)) <= n2)%nat) ->
  (List.length (fst (io_bind m k)) <= n1 + n2)%nat.
Proof.
  intros H1 H2. rewrite io_bind_fst, length_app.
  destruct (snd m) as [a| |]; [specialize (H2 a)|simpl|simpl]; lia.
Qed.

Lemma io_bind_lift_length {A B : Type} (r : result A) (k : A -> io B) (n : nat) :
  (forall a, (List.length (fst (k a)) <= n)%nat) ->
  (List.length (fst (io_bind (lift r) k)) <= n)%nat.
Proof.
  intros H. destruct r as [a| |]; cbn [lift io_bind]; [|simpl; lia|simpl; lia].
  specialize (H a). destruct (k a). cbn [app fst] in *. exact H.
Qed.

Lemma send_length {B : Type} (open_url : request -> reply) (req : request)
    (k : reply -> io B) :
  (forall a, fst (k a) = []) ->
  (List.length (fst (io_bind (send open_url req) k)) <= 1)%nat.
Proof.
  intros H. unfold send. cbn [io_bind]. specialize (H (open_url req)).
  destruct (k (open_url req)). cbn [fst] in *. subst. simpl. lia.
Qed.

Lemma get_account_length (open_url : request -> reply) (params : dict) :
  (List.length (fst (get_account open_url params)) <= 1)%nat.
Proof.
  unfold get_account. apply io_bind_lift_length. intros p.
  destruct (request_url _ _); try (simpl; lia).
  apply send_length. intros [code body|code body| | |code|code]; try reflexivity.
  destruct (Z.eqb code 404); reflexivity.
Qed.

Lemma update_account_length (open_url : request -> reply) (params : dict)
    (existing : value) :
  (List.length (fst (update_account open_url params existing)) <= 1)%nat.
Proof.
  unfold update_account. do 7 (apply io_bind_lift_length; intros ?).
  destruct a5; [simpl; lia|].
  destruct (request_url _ _); try (simpl; lia).
  apply send_length. intros [code [body|]|code body| | |code|code]; reflexivity.
Qed.

Lemma add_account_length (open_url : request -> reply) (params : dict) :
  (List.length (fst (add_account open_url params)) <= 1)%nat.
Proof.
  unfold add_account. do 6 (apply io_bind_lift_length; intros ?).
  destruct (request_url _ _); try (simpl; lia).
  apply send_length. intros [code [body|]|code body| | |code|code]; reflexivity.
Qed.

Lemma delete_account_length (open_url : request -> reply) (params : dict)
    (existing : value) :
  (List.length (fst (delete_account open_url params existing)) <= 1)%nat.
Proof.
  unfold delete_account. do 5 (apply io_bind_lift_length; intros ?).
  destruct (request_url _ _); try (simpl; lia).
  apply send_length. intros [code body|code body| | |code|code]; reflexivity.
Qed.

Lemma reset_account_length (open_url : request -> reply) (params : dict)
    (existing : value) :
  (List.length (fst (reset_account_if_needed open_url params existing)) <= 1)%nat.
Proof.
  unfold reset_account_if_needed. do 4 (apply io_bind_lift_length; intros ?).
  destruct a2 as [[end_point payload]|]; [|simpl; lia].
  apply io_bind_lift_length; intros ?.
  destruct (request_url _ _); simpl; lia.
Qed.

Lemma get_account_methods (open_url : request -> reply) (params : dict) :
  Forall (fun r => req_method r = "GET") (fst (get_account open_url params)).
Proof.
  unfold get_account.
  destruct (get_account_prepare params) as [p| |]; cbn [lift io_bind fst];
    try constructor.
  destruct (request_url (p_api_base_url p) (p_end_point p));
    cbn [lift send io_bind app fst]; try constructor.
  destruct (open_url _) as [c body|c body| | |c|c]; cbn [lift].
  - destruct (except_exception _ _ _); repeat constructor.
  - destruct (Z.eqb c 404); repeat constructor.
  - repeat constructor.
  - repeat constructor.
  - repeat constructor.
  - repeat constructor.
Qed.

(** X15.  A run sends at most three requests, whatever the arguments and
    whatever the vault answers: the lookup, one create, update or delete,
    and one rotation call; and the first request of a run is the lookup's
    GET. *)
Theorem main_sends_at_most_three (open_url : request -> reply) (args : dict) :
  (List.length (fst (main open_url args)) <= 3)%nat
  /\ forall r, hd_error (fst (main open_url args)) = Some r ->
               req_method r = "GET".
Proof.
  split.
  - unfold main. cbv zeta. apply io_bind_lift_length. intros state.
    apply (io_bind_length _ _ 1 2); [apply get_account_length|].
    intros [[found account_record] code].
    destruct (py_eq state (VStr "present")).
    + apply (io_bind_length _ _ 1 1).
      * destruct found; [apply update_account_length|apply add_account_length].
      * intros [[changed1 result] sc].
        replace 1%nat with (1 + 0)%nat by reflexivity.
        apply io_bind_length; [apply reset_account_length|].
        intros [[ar rr] rsc]. simpl. lia.
    + destruct (found && py_eq state (VStr "absent"))%bool; [|simpl; lia].
      replace 2%nat with (1 + 1)%nat by reflexivity.
      apply io_bind_length; [apply delete_account_length|].
      intros [[c res] sc]. simpl. lia.
  - intros r. unfold main. cbv zeta. rewrite io_bind_fst.
    destruct (getparam (module_params args) "state") as [state| |];
      cbn [lift fst snd app]; try discriminate.
    rewrite io_bind_fst.
    pose proof (get_account_methods open_url (module_params args)) as Hm.
    destruct (get_account open_url (module_params args)) as [l res] eqn:Hg.
    cbn [fst snd] in *. destruct l as [|r0 l].
    + destruct res as [x| |]; cbn [app hd_error]; try discriminate.
      destruct (get_account_log _ _ _ _ Hg) as (p & b & _ & _ & E).
      discriminate.
    + cbn [app hd_error]. intros H. inversion H; subst.
      now inversion Hm.
Qed.

(** ** The lookup *)

(** X16.  When the search reports a count of zero, [get_account] reports
    not-found without looking at the records of the answer. *)
Theorem get_account_zero_count (open_url : request -> reply) (params : dict)
    (p : prepared) (b : string) (code : Z) (body count : value) :
  get_account_prepare params = Ret p ->
  p_api_base_url p = VStr b ->
  open_url (mkReq "GET" (b ++ p_end_point p) (p_token p) None
              (p_validate_certs p)) = Response code (Some body) ->
  getitem body "count" = Ret count ->
  py_eq count (VInt 0) = true ->
  get_account open_url params
  = ([mkReq "GET" (b ++ p_end_point p) (p_token p) None (p_validate_certs p)],
     Ret (false, VNone, code)).
Proof.
  intros Hp Hb Hrep Hc Hz. unfold get_account. rewrite Hp.
  cbn [lift io_bind]. rewrite Hb. cbn [request_url send io_bind app].
  rewrite Hrep. unfold read_accounts. rewrite Hc. cbn [rbind]. now rewrite Hz.
Qed.

Lemma get_account_zero_count_witness :
  get_account vault_zero_count (module_params args_create)
  = ([mkReq "GET"
        ("https://vault.example" ++
         "/PasswordVault/api/accounts?filter=safeName%20eq%20S1&search=admin%2010.0.0.1%20P1")
        (VStr "TOKEN") None (VBool true)],
     Ret (false, VNone, 200)).
Proof.
  apply (get_account_zero_count vault_zero_count (module_params args_create)
           (mkPrepared ["username"; "address"; "platform_id"]
              "/PasswordVault/api/accounts?filter=safeName%20eq%20S1&search=admin%2010.0.0.1%20P1"
              (VStr "https://vault.example") (VBool true) (VStr "TOKEN"))
           "https://vault.example" 200
           (VDict [("value", VList [record_example]); ("count", VInt 0)])
           (VInt 0)); reflexivity.
Defined.

(** X17.  A record that holds one of the identity fields under neither
    its vault name nor its parameter name is never counted as a match,
    whatever the caller's value for that field. *)
Theorem record_without_field_never_matches (params record : dict)
    (identified_by_fields : list string) (field : string) :
  In field identified_by_fields ->
  str_mem "." field = false ->
  Dict.get (vault_name field) record = None ->
  Dict.get field record = None ->
  forall found,
    record_matches params (VDict record) identified_by_fields found
    <> Ret true.
Proof.
  intros Hin Hp Hv Hf.
  induction identified_by_fields as [|g fs IH]; [destruct Hin|].
  intros found. cbn [record_matches].
  destruct (deep_get (VDict record) g (Some (VStr "NOT FOUND")) true)
    as [rv| |] eqn:Hrv; cbn [rbind]; try discriminate.
  destruct (deep_get (VDict params) g (Some (VStr "NOT FOUND")) true)
    as [lv| |]; cbn [rbind]; try discriminate.
  destruct (negb (py_eq rv (VStr "NOT FOUND"))) eqn:Hnf; [|discriminate].
  destruct (deep_get (VDict params) g (Some (VStr "NOT FOUND")) false)
    as [pv| |]; cbn [rbind]; try discriminate.
  destruct (py_eq rv pv); [|discriminate].
  destruct Hin as [->|Hin]; [|now apply IH].
  rewrite (deep_get_undotted_reference _ _ _ Hp), Hv, Hf in Hrv.
  inversion Hrv; subst rv. discriminate.
Qed.

Lemma record_without_field_never_matches_witness :
  record_matches (module_params args_create)
    (VDict [("id", VStr "7_1"); ("userName", VStr "admin");
            ("address", VStr "10.0.0.1")])
    ["username"; "address"; "platform_id"] false
  <> Ret true.
Proof.
  refine (record_without_field_never_matches (module_params args_create)
            [("id", VStr "7_1"); ("userName", VStr "admin");
             ("address", VStr "10.0.0.1")]
            ["username"; "address"; "platform_id"] "platform_id"
            _ _ _ _ false);
    try reflexivity.
  simpl. right. right. left. reflexivity.
Defined.

(** ** The rename table and the argument spec *)

Lemma str_in_map_filter {A : Type} (f : A -> string) (P : A -> bool)
    (x : string) (l : list A) :
  str_in x (map f (filter P l)) = true -> str_in x (map f l) = true.
Proof.
  rewrite !str_in_In, !in_map_iff.
  intros (a & E & Hin). apply filter_In in Hin as [Hin _]. now exists a.
Qed.

Lemma distinct_map_filter {A : Type} (f : A -> string) (P : A -> bool)
    (l : list A) :
  distinct (map f l) = true -> distinct (map f (filter P l)) = true.
Proof.
  induction l as [|a l IH]; [reflexivity|].
  cbn [map distinct filter]. intros H. apply andb_true_iff in H as [Hn Hd].
  destruct (P a); [|now apply IH].
  cbn [map distinct]. apply andb_true_iff. split; [|now apply IH].
  apply negb_true_iff. apply negb_true_iff in Hn.
  destruct (str_in (f a) (map f (filter P l))) eqn:E; [|reflexivity].
  apply str_in_map_filter in E. congruence.
Qed.

(** X18.  Whatever the caller passes, the parameters the argument spec
    declares resolve to pairwise distinct vault names: no two of them can
    ask the builder for the same top-level member. *)
Theorem declared_targets_distinct (args : dict) :
  distinct (targets (module_params args)) = true.
Proof.
  unfold targets. apply distinct_map_filter. reflexivity.
Qed.

(** X19.  The two rename tables are inverse to each other: a parameter
    name is renamed to a vault name by the one exactly when the other
    renames that vault name back to it. *)
Theorem reference_tables_inverse (parameter_name cyberark_name : string) :
  Dict.get parameter_name cyberark_reference_fieldnames = Some cyberark_name
  <-> Dict.get cyberark_name ansible_reference_fieldnames
      = Some parameter_name.
Proof.
  unfold cyberark_reference_fieldnames, ansible_reference_fieldnames.
  cbn [Dict.get].
  split;
    repeat (match goal with
            | |- (if String.eqb ?a ?b then _ else _) = _ -> _ =>
                let E := fresh "E" in
                destruct (String.eqb a b) eqn:E;
                [apply String.eqb_eq in E; subst;
                 let H := fresh "H" in
                 intros H; inversion H; reflexivity
                |clear E]
            end);
    discriminate.
Qed.

(** ** Rotation *)

Lemma reset_account_first_match_witness :
  reset_account_if_needed (vault_with [record_example])
    (module_params args_reconcile) record_example
  = ([mkReq "POST"
        ("https://vault.example" ++ "/PasswordVault/API/Accounts/12_3/Reconcile")
        (VStr "TOKEN") (Some (VDict [])) (VBool true)],
     Ret (true, VNone, 201)).
Proof.
  apply (reset_account_first_match (vault_with [record_example])
           (module_params args_reconcile) record_example
           (VStr "reconcile") VNone (VStr "12_3") session_example
           (VBool true) (VStr "TOKEN") "https://vault.example");
    reflexivity.
Defined.

(** X21.  When no rotation rule applies, the record is not looked at: the
    function sends nothing and reports no change with status code -1, even
    for a record without an [id]. *)
Theorem reset_account_without_rule (open_url : request -> reply)
    (params : dict)
    (existing management_action cpm_new_secret session b vc : value) :
  deep_get (VDict params) "secret_management.management_action"
    (Some (VStr "NOT_FOUND")) false = Ret management_action ->
  deep_get (VDict params) "secret_management.new_secret"
    (Some (VStr "NOT_FOUND")) false = Ret cpm_new_secret ->
  getparam params "cyberark_session" = Ret session ->
  getitem session "api_base_url" = Ret b ->
  getitem session "validate_certs" = Ret vc ->
  first_match (rotation_rules management_action cpm_new_secret
                 (Dict.get "new_secret" params)) = None ->
  reset_account_if_needed open_url params existing
  = ([], Ret (false, VDict [], -1)).
Proof.
  intros Hma Hcpm Hs Hb Hv Hnone. unfold reset_account_if_needed.
  rewrite Hs. cbn [lift io_bind]. rewrite Hb. cbn [io_bind].
  rewrite Hv. cbn [io_bind].
  assert (Hc : rotation_choice params existing = Ret None).
  { unfold rotation_choice. rewrite Hma, Hcpm. cbn [rbind].
    unfold rotation_rules, explicit_secret in Hnone.
    destruct (py_eq management_action (VStr "change")),
      (py_eq management_action (VStr "change_immediately")),
      (py_eq management_action (VStr "reconcile")),
      (is_none cpm_new_secret), (py_eq cpm_new_secret (VStr "NOT_FOUND"));
      cbn [andb orb negb first_match] in Hnone |- *; try discriminate;
      (destruct (Dict.get "new_secret" params) as [ns|]; [|reflexivity];
       destruct (is_none ns); cbn [negb first_match] in Hnone |- *;
       [reflexivity|discriminate]). }
  rewrite Hc. reflexivity.
Qed.

Lemma reset_account_without_rule_witness :
  reset_account_if_needed (vault_with [])
    (module_params
       (("secret_management", VDict [("management_action", VStr "change")])
          :: args_create))
    VNone
  = ([], Ret (false, VDict [], -1)).
Proof.
  apply (reset_account_without_rule (vault_with [])
           (module_params
              (("secret_management",
                VDict [("management_action", VStr "change")]) :: args_create))
           VNone (VStr "change") VNone session_example
           (VStr "https://vault.example") (VBool true)); reflexivity.
Defined.

(** X22.  Once the part before the [try] has run, the only Python exception
    that can leave [get_account] is the AttributeError of its HTTP handler
    reading [.code], and it leaves exactly when [open_url] raises an
    [HTTPException] or the body of the response is cut short
    ([IncompleteRead]).  A response whose body was read, whatever it
    holds, an [HTTPError] and every other failure end in a return or in
    [fail_json]. *)
Theorem get_account_raises_only_in_handler (open_url : request -> reply)
    (params : dict) (p : prepared) (b : string) (e : exn) :
  get_account_prepare params = Ret p ->
  p_api_base_url p = VStr b ->
  snd (get_account open_url params) = Raise e
  <-> e = AttributeError
      /\ (open_url (mkReq "GET" (b ++ p_end_point p) (p_token p) None
                      (p_validate_certs p)) = HTTPException
          \/ exists code,
               open_url (mkReq "GET" (b ++ p_end_point p) (p_token p) None
                           (p_validate_certs p)) = IncompleteRead code).
Proof.
  intros Hp Hb. unfold get_account. rewrite Hp. cbn [lift io_bind].
  rewrite Hb. cbn [request_url send io_bind app].
  destruct (open_url _) as [code body|code body| | |code|code];
    cbn [lift snd].
  - split.
    + destruct (read_accounts params (p_fields p) code body);
        cbn [except_exception]; discriminate.
    + intros (_ & [H|(c & H)]); discriminate.
  - split.
    + destruct (Z.eqb code 404); discriminate.
    + intros (_ & [H|(c & H)]); discriminate.
  - split.
    + intros H. inversion H. split; [reflexivity|now left].
    + intros (-> & _). reflexivity.
  - split.
    + discriminate.
    + intros (_ & [H|(c & H)]); discriminate.
  - split.
    + intros H. inversion H. split; [reflexivity|right; now exists code].
    + intros (-> & _). reflexivity.
  - split.
    + discriminate.
    + intros (_ & [H|(c & H)]); discriminate.
Qed.

Lemma get_account_raises_only_in_handler_witness :
  snd (get_account (fun _ => IncompleteRead 200) (module_params args_create))
  = Raise AttributeError.
Proof.
  apply (get_account_raises_only_in_handler
           (fun _ => IncompleteRead 200)
           (module_params args_create)
           (mkPrepared ["username"; "address"; "platform_id"]
              "/PasswordVault/api/accounts?filter=safeName%20eq%20S1&search=admin%2010.0.0.1%20P1"
              (VStr "https://vault.example") (VBool true) (VStr "TOKEN"))
           "https://vault.example" AttributeError);
    [reflexivity|reflexivity|].
  split; [reflexivity|right; exists 200; reflexivity].
Defined.

(** X24.  The initial entry of the create payload is not tested against
    the removal sentinel: for a safe named [NO_VALUE] the create call
    carries [safeName] with that text, whatever the vault answers. *)
Theorem add_account_keeps_sentinel_safe (open_url : request -> reply) :
  Dict.get "safe" (module_params args_sentinel_safe) = Some removal_value
  /\ fst (add_account open_url (module_params args_sentinel_safe))
     = [mkReq "POST" "https://vault.example/PasswordVault/api/Accounts"
          (VStr "TOKEN")
          (Some (VDict [("safeName", VStr "NO_VALUE");
                        ("platformId", VStr "P1");
                        ("address", VStr "10.0.0.1");
                        ("secretType", VStr "password");
                        ("userName", VStr "admin")]))
          (VBool true)].
Proof.
  split; [reflexivity|].
  apply (add_account_log open_url (module_params args_sentinel_safe) _
           session_example (VBool true) (VStr "TOKEN") (VStr "NO_VALUE")
           "https://vault.example"); reflexivity.
Qed.
